(** * ReplayProvider: a record/replay caching proxy

    Shallow embedding of [llama_stack/providers/utils/replay_provider.py]
    and the properties of its cache key, cache store, response codec and
    dispatcher.

    Conventions of the embedding.
    - A Python [str] is a Rocq [string]; each character is the code point
      of the same number (0..255).  [str.encode()] is UTF-8.
    - Python values live in [pyval]; floats, sets and bytes are outside
      the universe, and dictionaries have [str] keys.
    - The file system is a set of directories and a finite map from
      paths to the JSON document a file holds.  Permission, disk-full
      and malformed-file errors are not modelled.
    - [async] methods are awaited on the spot, so a method is a state
      transformer that returns a value or raises. *)

From Stdlib Require Import ZArith String Ascii DecimalString.
From stdpp Require Import base numbers option list strings gmap.

Local Open Scope string_scope.
Local Open Scope list_scope.
Set Warnings "-register-all".

(** ** Strings *)

Module Str.

Definition code (c : ascii) : Z := Z.of_N (N_of_ascii c).

Definition chr (z : Z) : ascii := ascii_of_N (Z.to_N z).

Definition chars (s : string) : list ascii := list_ascii_of_string s.

Fixpoint concat (l : list string) : string :=
  match l with
  | [] => ""
  | s :: l' => s +:+ concat l'
  end.

(** [sep.join(l)] *)
Fixpoint join (sep : string) (l : list string) : string :=
  match l with
  | [] => ""
  | [s] => s
  | s :: l' => s +:+ sep +:+ join sep l'
  end.

Fixpoint contains_char (c : ascii) (s : string) : bool :=
  match s with
  | EmptyString => false
  | String d s' => if Ascii.eqb c d then true else contains_char c s'
  end.

(** [s[:n]] *)
Definition take (n : nat) (s : string) : string := substring 0 n s.

Fixpoint drop (n : nat) (s : string) : string :=
  match n, s with
  | O, _ => s
  | S n', String _ s' => drop n' s'
  | S _, EmptyString => EmptyString
  end.

(** [str.lower()] on code points below 256: the ASCII capitals and the
    Latin-1 capitals U+00C0..U+00DE (U+00D7, the multiplication sign,
    is not a letter) move up by 32. *)
Definition lower_char (c : ascii) : ascii :=
  let z := code c in
  if ((65 <=? z) && (z <=? 90))%Z then chr (z + 32)
  else if ((192 <=? z) && (z <=? 222) && negb (z =? 215))%Z then chr (z + 32)
  else c.

Fixpoint lower (s : string) : string :=
  match s with
  | EmptyString => EmptyString
  | String c s' => String (lower_char c) (lower s')
  end.

(** [s.replace(old, new)] for a non-empty [old]: the occurrences are
    taken from the left and do not overlap. *)
Fixpoint replace_fuel (fuel : nat) (old new s : string) : string :=
  match fuel with
  | O => s
  | S fuel' =>
      match s with
      | EmptyString => EmptyString
      | String c s' =>
          if String.prefix old s
          then new +:+ replace_fuel fuel' old new (drop (String.length old) s)
          else String c (replace_fuel fuel' old new s')
      end
  end.

Definition replace (old new s : string) : string :=
  replace_fuel (S (String.length s)) old new s.

Definition hex_digit (z : Z) : ascii :=
  if (z <? 10)%Z then chr (48 + z) else chr (87 + z).

(** two lower-case hexadecimal digits of a byte *)
Definition hex_byte (b : Z) : string :=
  String (hex_digit (b / 16 mod 16)) (String (hex_digit (b mod 16)) "").

(** [str.encode()]: UTF-8; code points from 128 take two bytes. *)
Definition encode_char (c : ascii) : list Z :=
  let z := code c in
  if (z <? 128)%Z then [z]
  else [Z.lor 192 (Z.shiftr z 6); Z.lor 128 (Z.land z 63)].

Definition encode (s : string) : list Z :=
  flat_map encode_char (chars s).

Definition of_Z (z : Z) : string := NilZero.string_of_int (Z.to_int z).

End Str.

(** ** hashlib.md5 (RFC 1321) on 32-bit words held in [Z] *)

Module MD5.

Local Open Scope Z_scope.

Definition wrap (x : Z) : Z := x mod 2 ^ 32.

Definition add32 (x y : Z) : Z := wrap (x + y).

Definition not32 (x : Z) : Z := Z.lxor x 0xffffffff.

Definition rotl (x n : Z) : Z :=
  Z.lor (wrap (Z.shiftl x n)) (Z.shiftr x (32 - n)).

Definition K : list Z :=
  [ 0xd76aa478; 0xe8c7b756; 0x242070db; 0xc1bdceee;
    0xf57c0faf; 0x4787c62a; 0xa8304613; 0xfd469501;
    0x698098d8; 0x8b44f7af; 0xffff5bb1; 0x895cd7be;
    0x6b901122; 0xfd987193; 0xa679438e; 0x49b40821;
    0xf61e2562; 0xc040b340; 0x265e5a51; 0xe9b6c7aa;
    0xd62f105d; 0x02441453; 0xd8a1e681; 0xe7d3fbc8;
    0x21e1cde6; 0xc33707d6; 0xf4d50d87; 0x455a14ed;
    0xa9e3e905; 0xfcefa3f8; 0x676f02d9; 0x8d2a4c8a;
    0xfffa3942; 0x8771f681; 0x6d9d6122; 0xfde5380c;
    0xa4beea44; 0x4bdecfa9; 0xf6bb4b60; 0xbebfbc70;
    0x289b7ec6; 0xeaa127fa; 0xd4ef3085; 0x04881d05;
    0xd9d4d039; 0xe6db99e5; 0x1fa27cf8; 0xc4ac5665;
    0xf4292244; 0x432aff97; 0xab9423a7; 0xfc93a039;
    0x655b59c3; 0x8f0ccc92; 0xffeff47d; 0x85845dd1;
    0x6fa87e4f; 0xfe2ce6e0; 0xa3014314; 0x4e0811a1;
    0xf7537e82; 0xbd3af235; 0x2ad7d2bb; 0xeb86d391 ].

Definition S_ : list Z :=
  [ 7; 12; 17; 22; 7; 12; 17; 22; 7; 12; 17; 22; 7; 12; 17; 22;
    5; 9; 14; 20; 5; 9; 14; 20; 5; 9; 14; 20; 5; 9; 14; 20;
    4; 11; 16; 23; 4; 11; 16; 23; 4; 11; 16; 23; 4; 11; 16; 23;
    6; 10; 15; 21; 6; 10; 15; 21; 6; 10; 15; 21; 6; 10; 15; 21 ].

Definition nthZ (l : list Z) (i : Z) : Z := nth (Z.to_nat i) l 0.

(** message padding: a one bit, zeros up to 56 mod 64, then the bit
    length as 8 little-endian bytes *)
Definition le_bytes (n : nat) (x : Z) : list Z :=
  map (fun i => Z.shiftr x (8 * Z.of_nat i) mod 256) (seq 0 n).

Definition pad (msg : list Z) : list Z :=
  let len := Z.of_nat (length msg) in
  let zeros := Z.to_nat ((55 - len) mod 64) in
  msg ++ [128] ++ repeat 0 zeros ++ le_bytes 8 ((8 * len) mod 2 ^ 64).

Definition word_le (bs : list Z) : Z :=
  nthZ bs 0 + 256 * nthZ bs 1 + 65536 * nthZ bs 2 + 16777216 * nthZ bs 3.

Fixpoint words (n : nat) (bs : list Z) : list Z :=
  match n with
  | O => []
  | S n' => word_le bs :: words n' (skipn 4 bs)
  end.

Fixpoint chunks (n : nat) (bs : list Z) : list (list Z) :=
  match n with
  | O => []
  | S n' => firstn 64 bs :: chunks n' (skipn 64 bs)
  end.

Record state := State { sa : Z; sb : Z; sc : Z; sd : Z }.

Definition init : state :=
  State 0x67452301 0xefcdab89 0x98badcfe 0x10325476.

Definition round (M : list Z) (st : state) (i : Z) : state :=
  let '(State A B C D) := st in
  let '(F, g) :=
    if i <? 16 then (Z.lor (Z.land B C) (Z.land (not32 B) D), i)
    else if i <? 32 then (Z.lor (Z.land D B) (Z.land (not32 D) C), (5 * i + 1) mod 16)
    else if i <? 48 then (Z.lxor (Z.lxor B C) D, (3 * i + 5) mod 16)
    else (Z.lxor C (Z.lor B (not32 D)), (7 * i) mod 16) in
  let F' := add32 (add32 (add32 F A) (nthZ K i)) (nthZ M g) in
  State D (add32 B (rotl F' (nthZ S_ i))) B C.

Definition process (st : state) (chunk : list Z) : state :=
  let M := words 16 chunk in
  let '(State A B C D) := fold_left (round M) (map Z.of_nat (seq 0 64)) st in
  State (add32 (sa st) A) (add32 (sb st) B) (add32 (sc st) C) (add32 (sd st) D).

Definition digest (msg : list Z) : list Z :=
  let p := pad msg in
  let '(State A B C D) :=
    fold_left process (chunks (length p / 64) p) init in
  le_bytes 4 A ++ le_bytes 4 B ++ le_bytes 4 C ++ le_bytes 4 D.

(** [hashlib.md5(data).hexdigest()] *)
Definition hexdigest (msg : list Z) : string :=
  Str.concat (map Str.hex_byte (digest msg)).

End MD5.

(** ** Python values *)

(** The two generations of pydantic models: a v2 model has both
    [model_dump] and [dict], a v1 model has [dict] only. *)
Inductive pydantic := V1 | V2.

Inductive pyval :=
| PNone
| PBool (b : bool)
| PInt (z : Z)
| PStr (s : string)
| PList (l : list pyval)
| PTuple (l : list pyval)
| PDict (kvs : list (string * pyval))
    (* insertion-ordered, keys pairwise distinct *)
| PModel (v : pydantic) (cls : string) (fields : list (string * pyval))
    (* an instance of a pydantic [BaseModel] subclass *)
| PObject (modname cls : string) (addr : Z).
    (* an instance of a plain class, at its memory address *)

(** Induction over the nesting of values. *)
Section pyval_induction.
Variable P : pyval → Prop.
Hypothesis HNone : P PNone.
Hypothesis HBool : ∀ b, P (PBool b).
Hypothesis HInt : ∀ z, P (PInt z).
Hypothesis HStr : ∀ s, P (PStr s).
Hypothesis HList : ∀ l, Forall P l → P (PList l).
Hypothesis HTuple : ∀ l, Forall P l → P (PTuple l).
Hypothesis HDict : ∀ kvs, Forall (λ kv, P kv.2) kvs → P (PDict kvs).
Hypothesis HModel : ∀ v c fs, Forall (λ kv, P kv.2) fs → P (PModel v c fs).
Hypothesis HObject : ∀ m c a, P (PObject m c a).

Fixpoint pyval_nested_ind (x : pyval) : P x :=
  let fix go (l : list pyval) : Forall P l :=
    match l with
    | [] => Forall_nil_2 P
    | y :: l' => Forall_cons_2 P y l' (pyval_nested_ind y) (go l')
    end in
  let fix gokv (l : list (string * pyval)) : Forall (λ kv, P kv.2) l :=
    match l with
    | [] => Forall_nil_2 _
    | (k, y) :: l' => Forall_cons_2 (λ kv, P kv.2) (k, y) l' (pyval_nested_ind y) (gokv l')
    end in
  match x with
  | PNone => HNone
  | PBool b => HBool b
  | PInt z => HInt z
  | PStr s => HStr s
  | PList l => HList l (go l)
  | PTuple l => HTuple l (go l)
  | PDict kvs => HDict kvs (gokv kvs)
  | PModel v c fs => HModel v c fs (gokv fs)
  | PObject m c a => HObject m c a
  end.
End pyval_induction.

Definition kwargs := list (string * pyval).

(** [d.get(k)] on the items of a dictionary *)
Fixpoint assoc {A} (k : string) (kvs : list (string * A)) : option A :=
  match kvs with
  | [] => None
  | (k', v) :: kvs' => if String.eqb k k' then Some v else assoc k kvs'
  end.

(** [d[k] = v]: an existing key keeps its place, a new one goes last *)
Fixpoint assoc_set {A} (k : string) (v : A) (kvs : list (string * A))
  : list (string * A) :=
  match kvs with
  | [] => [(k, v)]
  | (k', v') :: kvs' =>
      if String.eqb k k' then (k, v) :: kvs' else (k', v') :: assoc_set k v kvs'
  end.

(** [dict(pairs)] *)
Definition dict_of_pairs {A} (kvs : list (string * A)) : list (string * A) :=
  fold_left (λ acc kv, assoc_set kv.1 kv.2 acc) kvs [].

(** *** repr and str *)

Module Repr.

Definition printable (c : ascii) : bool :=
  let z := Str.code c in
  negb ((z <? 32) || ((127 <=? z) && (z <=? 160)) || (z =? 173))%Z.

Definition escape_char (quote c : ascii) : string :=
  if Ascii.eqb c quote || Ascii.eqb c "\"%char then String "\" (String c "")
  else if Ascii.eqb c "009"%char then "\t"
  else if Ascii.eqb c "010"%char then "\n"
  else if Ascii.eqb c "013"%char then "\r"
  else if printable c then String c ""
  else "\x" +:+ Str.hex_byte (Str.code c).

Definition squote : ascii := "'"%char.
Definition dquote : ascii := "034"%char.

(** [repr(s)] of a string: single quotes unless the text has a single
    quote and no double quote *)
Definition of_str (s : string) : string :=
  let quote :=
    if Str.contains_char squote s && negb (Str.contains_char dquote s)
    then dquote else squote in
  String quote (Str.concat (map (escape_char quote) (Str.chars s)))
    +:+ String quote "".

Fixpoint hex_pos (p : positive) (acc : string) (fuel : nat) : string :=
  match fuel with
  | O => acc
  | S fuel' =>
      let z := Z.pos p in
      let acc' := String (Str.hex_digit (z mod 16)) acc in
      match (z / 16)%Z with
      | Z.pos q => hex_pos q acc' fuel'
      | _ => acc'
      end
  end.

(** the digits of [hex(z)] for a non-negative [z] *)
Definition hex (z : Z) : string :=
  match z with
  | Z.pos p => hex_pos p "" (Pos.to_nat (Pos.size p))
  | _ => "0"
  end.

Definition tuple_body (items : list string) : string :=
  match items with
  | [x] => x +:+ ","
  | _ => Str.join ", " items
  end.

Fixpoint repr (x : pyval) : string :=
  match x with
  | PNone => "None"
  | PBool true => "True"
  | PBool false => "False"
  | PInt z => Str.of_Z z
  | PStr s => of_str s
  | PList l => "[" +:+ Str.join ", " (map repr l) +:+ "]"
  | PTuple l => "(" +:+ tuple_body (map repr l) +:+ ")"
  | PDict kvs =>
      "{" +:+ Str.join ", "
               (map (λ kv, let '(k, v) := kv in of_str k +:+ ": " +:+ repr v) kvs)
          +:+ "}"
  | PModel _ cls fs =>
      cls +:+ "(" +:+ Str.join ", "
               (map (λ kv, let '(k, v) := kv in k +:+ "=" +:+ repr v) fs)
          +:+ ")"
  | PObject m cls addr =>
      "<" +:+ m +:+ "." +:+ cls +:+ " object at 0x" +:+ hex addr +:+ ">"
  end.

(** [str(x)] *)
Definition str (x : pyval) : string :=
  match x with
  | PStr s => s
  | PModel _ _ fs =>
      Str.join " " (map (λ kv, let '(k, v) := kv in k +:+ "=" +:+ repr v) fs)
  | _ => repr x
  end.

End Repr.

(** [type(x).__name__] *)
Definition type_name (x : pyval) : string :=
  match x with
  | PNone => "NoneType"
  | PBool _ => "bool"
  | PInt _ => "int"
  | PStr _ => "str"
  | PList _ => "list"
  | PTuple _ => "tuple"
  | PDict _ => "dict"
  | PModel _ cls _ => cls
  | PObject _ cls _ => cls
  end.

(** [bool(x)] *)
Definition truthy (x : pyval) : bool :=
  match x with
  | PNone => false
  | PBool b => b
  | PInt z => negb (z =? 0)%Z
  | PStr s => negb (String.eqb s "")
  | PList l | PTuple l => negb (bool_decide (l = []))
  | PDict kvs => match kvs with [] => false | _ => true end
  | PModel _ _ _ | PObject _ _ _ => true
  end.

(** Every dictionary and every model inside [x] has pairwise distinct
    keys, as Python's have. *)
Fixpoint well_formed (x : pyval) : bool :=
  match x with
  | PList l | PTuple l => forallb well_formed l
  | PDict kvs | PModel _ _ kvs =>
      bool_decide (NoDup kvs.*1) && forallb (λ kv, well_formed kv.2) kvs
  | _ => true
  end.

(** [x] is made of what [json.load] returns: [None], booleans, integers,
    strings, lists and dictionaries. *)
Fixpoint json_native (x : pyval) : bool :=
  match x with
  | PNone | PBool _ | PInt _ | PStr _ => true
  | PList l => forallb json_native l
  | PDict kvs =>
      bool_decide (NoDup kvs.*1) && forallb (λ kv, json_native kv.2) kvs
  | _ => false
  end.

Definition is_None (x : pyval) : bool :=
  match x with PNone => true | _ => false end.

(** [x == s] for a string literal [s] *)
Definition eq_str (x : pyval) (s : string) : bool :=
  match x with PStr t => String.eqb t s | _ => false end.

(** ** JSON documents and the json module *)

Inductive json :=
| JNull
| JBool (b : bool)
| JNum (z : Z)
| JStr (s : string)
| JArr (l : list json)
| JObj (kvs : list (string * json)).

Module Json.

(** [json.dump(x, f, indent=2, default=str)]: the document written for
    [x].  Tuples become arrays; a value the encoder does not know is
    replaced by [str] of it. *)
Fixpoint dump (x : pyval) : json :=
  match x with
  | PNone => JNull
  | PBool b => JBool b
  | PInt z => JNum z
  | PStr s => JStr s
  | PList l | PTuple l => JArr (map dump l)
  | PDict kvs => JObj (map (λ kv, let '(k, v) := kv in (k, dump v)) kvs)
  | PModel _ _ _ | PObject _ _ _ => JStr (Repr.str x)
  end.

(** [json.load(f)]: objects become dictionaries (of a repeated key the
    last value counts), arrays become lists. *)
Fixpoint load (j : json) : pyval :=
  match j with
  | JNull => PNone
  | JBool b => PBool b
  | JNum z => PInt z
  | JStr s => PStr s
  | JArr l => PList (map load l)
  | JObj kvs =>
      PDict (dict_of_pairs (map (λ kv, let '(k, v) := kv in (k, load v)) kvs))
  end.

End Json.

(** [record["metadata"]["api_name"]] of a record document *)
Definition record_api_name (j : json) : option string :=
  match j with
  | JObj kvs =>
      match assoc "metadata" kvs with
      | Some (JObj md) =>
          match assoc "api_name" md with
          | Some (JStr n) => Some n
          | _ => None
          end
      | _ => None
      end
  | _ => None
  end.

(** ** pydantic: the structured-field view of a model *)

Module Pydantic.

Definition same (a b : pydantic) : bool :=
  match a, b with V1, V1 | V2, V2 => true | _, _ => false end.

(** The python-mode dump of generation [g] ([BaseModel.dict()] in v1):
    nested models of the same generation become dictionaries inside
    dictionaries, lists and tuples; any other value is kept. *)
Fixpoint get_value (g : pydantic) (x : pyval) : pyval :=
  match x with
  | PList l => PList (map (get_value g) l)
  | PTuple l => PTuple (map (get_value g) l)
  | PDict kvs => PDict (map (λ kv, let '(k, v) := kv in (k, get_value g v)) kvs)
  | PModel g' cls fs =>
      if same g g'
      then PDict (map (λ kv, let '(k, v) := kv in (k, get_value g v)) fs)
      else x
  | _ => x
  end.

(** [model.dict()] *)
Definition dict (x : pyval) : pyval :=
  match x with
  | PModel g _ _ => get_value g x
  | _ => x
  end.

(** every item, when none is missing *)
Fixpoint all_some {A} (l : list (option A)) : option (list A) :=
  match l with
  | [] => Some []
  | Some x :: l' => (x ::.) <$> all_some l'
  | None :: _ => None
  end.

(** The json-mode dump of a v2 model: nested v2 models become
    dictionaries, tuples become lists; a value of a type the
    serializer does not know (a plain object, a v1 model) has no
    dump. *)
Fixpoint to_jsonable (x : pyval) : option pyval :=
  match x with
  | PNone | PBool _ | PInt _ | PStr _ => Some x
  | PList l | PTuple l => PList <$> all_some (map to_jsonable l)
  | PDict kvs =>
      PDict <$> all_some (map (λ kv, let '(k, v) := kv in (k,.) <$> to_jsonable v) kvs)
  | PModel V2 _ fs =>
      PDict <$> all_some (map (λ kv, let '(k, v) := kv in (k,.) <$> to_jsonable v) fs)
  | PModel V1 _ _ | PObject _ _ _ => None
  end.

End Pydantic.

(** [hasattr(response, "model_dump")] *)
Definition has_model_dump (x : pyval) : bool :=
  match x with PModel V2 _ _ => true | _ => false end.

(** [hasattr(response, "dict")] *)
Definition has_dict (x : pyval) : bool :=
  match x with PModel _ _ _ => true | _ => false end.

(** ** Exceptions and effects *)

Inductive exn := Exn (cls msg : string).

Definition AttributeError := Exn "AttributeError".
Definition RuntimeError := Exn "RuntimeError".
Definition TypeError := Exn "TypeError".
Definition PydanticSerializationError := Exn "PydanticSerializationError".

Inductive outcome (A : Type) :=
| Return (a : A)
| Raise (e : exn).
Arguments Return {A} a.
Arguments Raise {A} e.

(** A path is the list of its segments below the root. *)
Abbreviation path := (list string).

(** [p / s]: an empty segment adds nothing.  The segments joined here
    are class and method names, which hold no separator. *)
Definition path_join (p : path) (s : string) : path :=
  if String.eqb s "" then p else p ++ [s].

(** [p.parent] *)
Definition parent (p : path) : path := removelast p.

(** the directories on the way to [p], [p] included *)
Definition ancestors (p : path) : list path :=
  map (λ n, firstn n p) (seq 1 (length p)).

(** A call that reached the real backend. *)
Record call := Call { call_method : string; call_args : list pyval; call_kwargs : kwargs }.

Record world (B : Type) := World {
  dirs : gset path;                (* the directories that exist *)
  files : gmap path json;          (* the regular files and their documents *)
  backend : B;                     (* the state of the real backend *)
  calls : list call                (* the calls the real backend has served *)
}.
Arguments World {B}.
Arguments dirs {B}.
Arguments files {B}.
Arguments backend {B}.
Arguments calls {B}.

Definition M (B A : Type) : Type := world B → outcome A * world B.

Global Instance M_ret {B} : MRet (M B) := λ A a w, (Return a, w).

Global Instance M_bind {B} : MBind (M B) := λ A C f m w,
  match m w with
  | (Return a, w') => f a w'
  | (Raise e, w') => (Raise e, w')
  end.

Definition raise {B A} (e : exn) : M B A := λ w, (Raise e, w).

(** lift a pure computation that may raise *)
Definition lift {B A} (o : outcome A) : M B A := λ w, (o, w).

(** [p.mkdir(parents=True, exist_ok=True)] *)
Definition mkdir {B} (p : path) : M B unit := λ w,
  (Return (), World (dirs w ∪ list_to_set (ancestors p)) (files w) (backend w) (calls w)).

(** [p.exists()] for the path of a record file *)
Definition path_exists {B} (p : path) : M B bool := λ w,
  (Return (bool_decide (is_Some (files w !! p))), w).

(** [with open(p, "r") as f: json.load(f)] *)
Definition read_json {B} (p : path) : M B pyval := λ w,
  match files w !! p with
  | Some j => (Return (Json.load j), w)
  | None => (Raise (Exn "FileNotFoundError" (Str.join "/" p)), w)
  end.

(** [with open(p, "w") as f: json.dump(x, f, indent=2, default=str)] *)
Definition write_json {B} (p : path) (x : pyval) : M B unit := λ w,
  (Return (), World (dirs w) (<[p := Json.dump x]> (files w)) (backend w) (calls w)).

(** [x.get(k)] and [x.get(k, default)] *)
Definition py_get (x : pyval) (k : string) (dflt : pyval) : outcome pyval :=
  match x with
  | PDict kvs => Return (default dflt (assoc k kvs))
  | _ => Raise (AttributeError ("'" +:+ type_name x +:+ "' object has no attribute 'get'"))
  end.

(** ** The replay provider *)

(** Operating modes for ReplayProvider. *)
Inductive ReplayMode :=
| CACHE_ONLY            (* never call real provider, error on cache miss *)
| CACHE_WITH_FALLBACK.  (* cache miss -> real provider -> update cache *)

(** The protocol class a provider is created for: its name and, for each
    member [inspect.getmembers] lists, whether it carries
    [__webmethod__]. *)
Record protocol := Protocol {
  __name__ : string;
  members : list (string * bool)
}.

(** The module [llama_stack.apis.inference], from which
    [_load_from_cache] imports three response classes.  [C kw] is the call
    of the class with the items of [kw] as keyword arguments: it raises,
    or returns the fields of the new instance. *)
Class apis_inference := {
  ChatCompletionResponse : kwargs → outcome kwargs;
  CompletionResponse : kwargs → outcome kwargs;
  EmbeddingsResponse : kwargs → outcome kwargs
}.

Section Replay.

(** the type of the real backend's state, and the response classes *)
Context {B : Type} {inference : apis_inference}.

(** a bound method of the real provider, awaited *)
Definition method := list pyval → kwargs → B → outcome pyval * B.

Record provider := Provider {
  provider_class : string;             (* type(real_provider).__name__ *)
  methods : string → option method     (* its attributes that are methods *)
}.

Record ReplayProvider := {
  proto : protocol;                    (* the class's [protocol] *)
  real_provider : option provider;
  mode : ReplayMode;
  cache_dir : path;
  routes : list string
}.

Definition __init__ (protocol_ : protocol) (real_provider_ : option provider)
    (mode_ : ReplayMode) (cache_dir_ : path) : M B ReplayProvider :=
  mkdir cache_dir_;;
  mret {| proto := protocol_;
          real_provider := real_provider_;
          mode := mode_;
          cache_dir := cache_dir_;
          routes := (filter (λ m, m.2 = true) (members protocol_)).*1 |}.

(** [type(self.real_provider).__name__ if self.real_provider else "NoProvider"] *)
Definition provider_type (self : ReplayProvider) : string :=
  match real_provider self with
  | Some p => provider_class p
  | None => "NoProvider"
  end.

(** [protocol.__name__.lower().replace("provider", "")] *)
Definition api_name (self : ReplayProvider) : string :=
  Str.replace "provider" "" (Str.lower (__name__ (proto self))).

(** [f"{args}_{kwargs}"] *)
Definition param_str (args : list pyval) (kw : kwargs) : string :=
  Repr.str (PTuple args) +:+ "_" +:+ Repr.str (PDict kw).

(** [hashlib.md5(param_str.encode()).hexdigest()[:8]] *)
Definition param_hash (args : list pyval) (kw : kwargs) : string :=
  Str.take 8 (MD5.hexdigest (Str.encode (param_str args kw))).

Definition _generate_cache_key (self : ReplayProvider) (method_name : string)
    (args : list pyval) (kw : kwargs) : string :=
  api_name self +:+ "_" +:+ provider_type self +:+ "_" +:+ method_name
    +:+ "_" +:+ param_hash args kw.

(** the path [_get_cache_path] returns *)
Definition cache_path_of (self : ReplayProvider) (cache_key : string) : path :=
  path_join (path_join (path_join (cache_dir self) (api_name self))
               (provider_type self)) (cache_key +:+ ".json").

Definition _get_cache_path (self : ReplayProvider) (cache_key : string) : M B path :=
  let cache_path := cache_path_of self cache_key in
  mkdir (parent cache_path);;
  mret cache_path.

(** the world once [_get_cache_path] has made the directory of the
    record *)
Definition touched (self : ReplayProvider) (cache_key : string) (w : world B)
  : world B :=
  World (dirs w ∪ list_to_set (ancestors (parent (cache_path_of self cache_key))))
    (files w) (backend w) (calls w).

(** The call of [C] with [response_data] unpacked into keyword
    arguments, which takes a mapping. *)
Definition call_ctor (cls : string) (C : kwargs → outcome kwargs)
    (response_data : pyval) : outcome pyval :=
  match response_data with
  | PDict kw =>
      match C kw with
      | Return fs => Return (PModel V2 cls fs)
      | Raise e => Raise e
      end
  | _ => Raise (TypeError ("argument after ** must be a mapping, not "
                             +:+ type_name response_data))
  end.

(** the classes [_load_from_cache] knows, by name *)
Definition registry (cls : string) : option (kwargs → outcome kwargs) :=
  if String.eqb cls "ChatCompletionResponse" then Some ChatCompletionResponse
  else if String.eqb cls "CompletionResponse" then Some CompletionResponse
  else if String.eqb cls "EmbeddingsResponse" then Some EmbeddingsResponse
  else None.

(** The body of the [try] block of [_load_from_cache]: [None] when no
    branch is taken. *)
Definition reconstruct (response_type response_data : pyval)
  : option (outcome pyval) :=
  if eq_str response_type "ChatCompletionResponse"
  then Some (call_ctor "ChatCompletionResponse" ChatCompletionResponse response_data)
  else if eq_str response_type "CompletionResponse"
  then Some (call_ctor "CompletionResponse" CompletionResponse response_data)
  else if eq_str response_type "EmbeddingsResponse"
  then Some (call_ctor "EmbeddingsResponse" EmbeddingsResponse response_data)
  else None.

(** What [_load_from_cache] makes of the parsed document. *)
Definition decode_record (cached_data : pyval) : outcome pyval :=
  match py_get cached_data "response" PNone with
  | Raise e => Raise e
  | Return response_data =>
      match py_get cached_data "metadata" (PDict []) with
      | Raise e => Raise e
      | Return metadata =>
          match py_get metadata "response_type" PNone with
          | Raise e => Raise e
          | Return response_type =>
              if truthy response_type && truthy response_data then
                match reconstruct response_type response_data with
                | Some (Return obj) => Return obj
                | Some (Raise _) => Return response_data   (* except Exception *)
                | None => Return response_data
                end
              else Return response_data
          end
      end
  end.

Definition _load_from_cache (self : ReplayProvider) (cache_key : string)
  : M B pyval :=
  cache_path ← _get_cache_path self cache_key;
  present ← path_exists cache_path;
  if present : bool then
    cached_data ← read_json cache_path;
    lift (decode_record cached_data)
  else mret PNone.

(** what [_load_from_cache] returns, read off the file at the path of
    the record *)
Definition lookup_result (self : ReplayProvider) (cache_key : string)
    (w : world B) : outcome pyval :=
  match files w !! cache_path_of self cache_key with
  | Some j => decode_record (Json.load j)
  | None => Return PNone
  end.

(** The three ways [_save_to_cache] serializes a response. *)
Definition serialize_response (response : pyval) : outcome pyval :=
  if has_model_dump response then
    match Pydantic.to_jsonable response with
    | Some d => Return d
    | None => Raise (PydanticSerializationError "Unable to serialize unknown type")
    end
  else if has_dict response then Return (Pydantic.dict response)
  else Return (PStr (Repr.str response)).

Definition cache_data_of (self : ReplayProvider) (cache_key : string)
    (response serialized_response : pyval) : pyval :=
  PDict [ ("cache_key", PStr cache_key);
          ("response", serialized_response);
          ("metadata",
            PDict [ ("provider_type", PStr (provider_type self));
                    ("api_name", PStr (__name__ (proto self)));
                    ("response_type", PStr (type_name response)) ]) ].

Definition _save_to_cache (self : ReplayProvider) (cache_key : string)
    (response : pyval) : M B unit :=
  cache_path ← _get_cache_path self cache_key;
  serialized_response ← lift (serialize_response response);
  let cache_data := cache_data_of self cache_key response serialized_response in
  write_json cache_path cache_data.

(** [getattr(self.real_provider, method_name)] *)
Definition getattr (p : provider) (method_name : string) : outcome method :=
  match methods p method_name with
  | Some f => Return f
  | None => Raise (AttributeError ("'" +:+ provider_class p
                     +:+ "' object has no attribute '" +:+ method_name +:+ "'"))
  end.

(** the awaited call of [real_method] with the caller's arguments *)
Definition await (method_name : string) (real_method : method)
    (args : list pyval) (kw : kwargs) : M B pyval := λ w,
  let '(o, b') := real_method args kw (backend w) in
  (o, World (dirs w) (files w) b' (calls w ++ [Call method_name args kw])).

Definition __acall__ (self : ReplayProvider) (method_name : string)
    (args : list pyval) (kw : kwargs) : M B pyval :=
  if negb (bool_decide (method_name ∈ routes self))
  then raise (AttributeError ("Unknown method: " +:+ method_name))
  else
    let cache_key := _generate_cache_key self method_name args kw in
    (* Try cache first *)
    cached_response ← _load_from_cache self cache_key;
    if negb (is_None cached_response) then mret cached_response
    else
      (* Handle cache miss *)
      match mode self with
      | CACHE_ONLY =>
          raise (RuntimeError ("Cache miss for " +:+ cache_key
                                 +:+ " and mode is CACHE_ONLY"))
      | CACHE_WITH_FALLBACK =>
          (* Call real provider *)
          match real_provider self with
          | None =>
              raise (RuntimeError ("Cache miss for " +:+ cache_key
                                     +:+ " and no real provider available"))
          | Some p =>
              real_method ← lift (getattr p method_name);
              response ← await method_name real_method args kw;
              (* Save to cache *)
              _save_to_cache self cache_key response;;
              mret response
          end
      end.

(** the world after a call that reached the real backend *)
Definition served (self : ReplayProvider) (method_name : string)
    (args : list pyval) (kw : kwargs) (b' : B) (fs : gmap path json)
    (w : world B) : world B :=
  World (dirs (touched self (_generate_cache_key self method_name args kw) w))
    fs b' (calls w ++ [Call method_name args kw]).

(** [n] awaits of the same call, one after the other *)
Fixpoint run_n {A} (n : nat) (c : M B A) (w : world B)
  : list (outcome A) * world B :=
  match n with
  | O => ([], w)
  | S n' => let '(o, w') := c w in
            let '(os, w'') := run_n n' c w' in (o :: os, w'')
  end.

(** [ReplayProvider(real_provider, protocol, mode, cache_dir)] *)
Definition ReplayProvider_ (real_provider_ : option provider) (protocol_ : protocol)
    (mode_ : ReplayMode) (cache_dir_ : path) : M B ReplayProvider :=
  __init__ protocol_ real_provider_ mode_ cache_dir_.

End Replay.

(** ** The providers of the test suite

    [tests/unit/test_replay_provider.py] and
    [tests/unit/simple_test_replay.py]. *)

Module Mock.

(** Binding of a call's arguments to the parameters [names]. *)
Fixpoint bind_params (names : list string) (args : list pyval) (kw : kwargs)
  : outcome (list pyval) :=
  match names with
  | [] =>
      match args, kw with
      | [], [] => Return []
      | _ :: _, _ => Raise (TypeError "too many positional arguments")
      | [], (k, _) :: _ => Raise (TypeError ("got an unexpected keyword argument '" +:+ k +:+ "'"))
      end
  | n :: names' =>
      match args with
      | a :: args' =>
          match assoc n kw with
          | Some _ => Raise (TypeError ("got multiple values for argument '" +:+ n +:+ "'"))
          | None =>
              match bind_params names' args' kw with
              | Return vs => Return (a :: vs)
              | Raise e => Raise e
              end
          end
      | [] =>
          match assoc n kw with
          | Some v =>
              match bind_params names' [] (filter (λ kv, kv.1 ≠ n) kw) with
              | Return vs => Return (v :: vs)
              | Raise e => Raise e
              end
          | None => Raise (TypeError ("missing a required argument: '" +:+ n +:+ "'"))
          end
      end
  end.

(** Mock protocol similar to InferenceProvider for testing. *)
Definition MockInferenceProvider : protocol :=
  Protocol "MockInferenceProvider"
    [("__doc__", false); ("__module__", false); ("completion", true)].

(** [MockRealProvider.completion]; the state is [call_count]. *)
Definition completion : @method Z := λ args kw call_count,
  match bind_params ["model_id"; "content"] args kw with
  | Return [model_id; content] =>
      let call_count' := (call_count + 1)%Z in
      (Return (PDict [ ("content", PStr ("Response to: " +:+ Repr.str content));
                       ("model", model_id);
                       ("call_number", PInt call_count') ]),
       call_count')
  | Return _ => (Raise (TypeError "completion()"), call_count)
  | Raise e => (Raise e, call_count)
  end.

Definition lifecycle : @method Z := λ args kw call_count,
  match bind_params [] args kw with
  | Return _ => (Return PNone, call_count)
  | Raise e => (Raise e, call_count)
  end.

(** Mock real provider implementation. *)
Definition MockRealProvider : @provider Z :=
  Provider "MockRealProvider"
    (λ name,
       if String.eqb name "initialize" then Some lifecycle
       else if String.eqb name "shutdown" then Some lifecycle
       else if String.eqb name "completion" then Some completion
       else None).

(** In the test environment the response classes are never built. *)
Definition no_class : kwargs → outcome kwargs :=
  λ _, Raise (Exn "ImportError" "cannot import name").

Definition no_inference : apis_inference :=
  {| ChatCompletionResponse := no_class;
     CompletionResponse := no_class;
     EmbeddingsResponse := no_class |}.

Definition temp_cache_dir : path := ["tmp"; "tmpcache"].

(** the file system of a test before the provider is made *)
Definition fresh : world Z := World {[ ["tmp"] ]} ∅ 0%Z [].

Definition acall := @__acall__ Z no_inference.

(** A stand-in for [CompletionResponse], to run the codec on: the
    fields [content] and [stop_reason], both strings. *)
Definition sample_CompletionResponse : kwargs → outcome kwargs := λ kw,
  match bind_params ["content"; "stop_reason"] [] kw with
  | Return [PStr content; PStr stop_reason] =>
      Return [("content", PStr content); ("stop_reason", PStr stop_reason)]
  | Return _ => Raise (Exn "ValidationError" "2 validation errors for CompletionResponse")
  | Raise e => Raise e
  end.

Definition sample_inference : apis_inference :=
  {| ChatCompletionResponse := no_class;
     CompletionResponse := sample_CompletionResponse;
     EmbeddingsResponse := no_class |}.

(** A provider whose operation returns a model outside the classes
    [_load_from_cache] knows:
    [apis/agents/openai_responses/objects.py], OpenAIDeleteResponseObject. *)
Definition Agents : protocol :=
  Protocol "Agents" [("__doc__", false); ("delete_openai_response", true)].

Definition delete_openai_response : @method Z := λ args kw n,
  match bind_params ["response_id"] args kw with
  | Return [response_id] =>
      (Return (PModel V2 "OpenAIDeleteResponseObject"
                 [("id", response_id); ("object", PStr "response");
                  ("deleted", PBool true)]),
       (n + 1)%Z)
  | Return _ => (Raise (TypeError "delete_openai_response()"), n)
  | Raise e => (Raise e, n)
  end.

Definition MockAgents : @provider Z :=
  Provider "MockAgents"
    (λ name, if String.eqb name "delete_openai_response"
             then Some delete_openai_response else None).

(** a provider that is down: every call of [completion] raises *)
Definition failing_completion : @method Z := λ args kw n,
  (Raise (Exn "ConnectionError" "backend unreachable"), (n + 1)%Z).

Definition DownProvider : @provider Z :=
  Provider "DownProvider"
    (λ name, if String.eqb name "completion" then Some failing_completion else None).

(** the provider object [__init__] builds *)
Definition replay (protocol_ : protocol) (p : option (@provider Z))
    (mode_ : ReplayMode) : @ReplayProvider Z :=
  {| proto := protocol_; real_provider := p; mode := mode_;
     cache_dir := temp_cache_dir;
     routes := (filter (λ m, m.2 = true) (members protocol_)).*1 |}.

(** the file system once [__init__] has run *)
Definition ready : world Z :=
  World {[ ["tmp"]; ["tmp"; "tmpcache"] ]} ∅ 0%Z [].

(** two argument sets whose renderings agree on the first eight
    digits of their MD5, f18a2408 *)
Definition message_a : kwargs :=
  [("model_id", PStr "test-model"); ("content", PStr "message 99773")].
Definition message_b : kwargs :=
  [("model_id", PStr "test-model"); ("content", PStr "message 103958")].

Definition hello : kwargs :=
  [("model_id", PStr "test-model"); ("content", PStr "Hello world")].

(** the path of the record of [completion] called with [hello] *)
Definition hello_path : path :=
  ["tmp"; "tmpcache"; "mockinference"; "MockRealProvider";
   "mockinference_MockRealProvider_completion_4779be7f.json"].

(** a record of an earlier run, of a class the decoder does not know *)
Definition stored_record : json :=
  JObj [ ("cache_key", JStr "mockinference_MockRealProvider_completion_4779be7f");
         ("response", JObj [("content", JStr "Response to: Hello world")]);
         ("metadata",
           JObj [ ("provider_type", JStr "MockRealProvider");
                  ("api_name", JStr "MockInferenceProvider");
                  ("response_type", JStr "CompletionResult") ]) ].

(** a record whose payload is null *)
Definition null_record : json :=
  JObj [ ("cache_key", JStr "mockinference_MockRealProvider_completion_4779be7f");
         ("response", JNull);
         ("metadata",
           JObj [ ("provider_type", JStr "MockRealProvider");
                  ("api_name", JStr "MockInferenceProvider");
                  ("response_type", JStr "NoneType") ]) ].

(** the file system with one record file *)
Definition holding (j : json) : world Z :=
  World (dirs ready) {[ hello_path := j ]} 0%Z [].

(** run [k] on the provider made in mode [mode_] *)
Definition with_provider {A} (mode_ : ReplayMode)
    (k : ReplayProvider → M Z A) : M Z A :=
  self ← __init__ MockInferenceProvider (Some MockRealProvider) mode_ temp_cache_dir;
  k self.

End Mock.

(** ** The rest of the provider class *)

(** the fields of a record document *)
Definition record_field (name : string) (j : json) : option json :=
  match j with
  | JObj kvs => assoc name kvs
  | _ => None
  end.

Definition record_metadata (name : string) (j : json) : option json :=
  match record_field "metadata" j with
  | Some md => record_field name md
  | None => None
  end.

(** every record file bears the name of the [cache_key] it holds *)
Definition addressed_by_key {B} (w : world B) : Prop :=
  ∀ p j, files w !! p = Some j →
    ∃ key, record_field "cache_key" j = Some (JStr key)
           ∧ last p = Some (key +:+ ".json").

(** [hash(x)] does not raise.  Lists and dictionaries have no hash, and
    neither has a pydantic model that is not frozen. *)
Fixpoint hashable (x : pyval) : bool :=
  match x with
  | PNone | PBool _ | PInt _ | PStr _ | PObject _ _ _ => true
  | PTuple l => forallb hashable l
  | PList _ | PDict _ | PModel _ _ _ => false
  end.

Section Class.

Context {B : Type} {inference : apis_inference}.






(** [__acall__] on a method name that is any value: the test
    [method_name not in self.routes] hashes the name, and a name that is
    no string is in no route. *)
Definition acall_named (self : @ReplayProvider B) (method_name : pyval)
    (args : list pyval) (kw : kwargs) : M B pyval :=
  match method_name with
  | PStr name => __acall__ self name args kw
  | _ =>
      if hashable method_name
      then raise (AttributeError ("Unknown method: " +:+ Repr.str method_name))
      else raise (TypeError ("unhashable type: '" +:+ type_name method_name +:+ "'"))
  end.

(** The entry point the class gets for the protocol member [name]: the
    keyword [method_name] has [name] as its default, and a caller's value
    for it is taken out of the keyword arguments. *)
Definition method_impl (name : string) (self : @ReplayProvider B)
    (args : list pyval) (kw : kwargs) : M B pyval :=
  match assoc "method_name" kw with
  | Some method_name =>
      acall_named self method_name args (filter (λ kv, kv.1 ≠ "method_name") kw)
  | None => __acall__ self name args kw
  end.

(** every record file lies where [self] looks for some key *)
Definition under_namespace (self : @ReplayProvider B) (w : world B) : Prop :=
  ∀ p, is_Some (files w !! p) → ∃ key, p = cache_path_of self key.

(** calls of the operations in [cs], one after the other *)
Fixpoint run_calls (self : @ReplayProvider B) (cs : list call) (w : world B)
  : list (outcome pyval) * world B :=
  match cs with
  | [] => ([], w)
  | c :: cs' =>
      let '(o, w') := __acall__ self (call_method c) (call_args c) (call_kwargs c) w in
      let '(os, w'') := run_calls self cs' w' in
      (o :: os, w'')
  end.

End Class.

(** ** The provider factory of [providers/utils/replay.py] *)

(** Configuration for the replay provider that wraps another provider
    with caching. *)
Module ReplayProviderConfig.

Record t := {
  real_provider_id : string;
  mode : string;
  cache_dir : string
}.

(** the defaults of the fields [mode] and [cache_dir] *)
Definition make (real_provider_id_ : string) : t :=
  {| real_provider_id := real_provider_id_;
     mode := "cache_with_fallback";
     cache_dir := "~/.llama_stack_cache" |}.

Definition sample_run_config : t :=
  {| real_provider_id := "fireworks";
     mode := "cache_only";
     cache_dir := "~/.llama_stack_cache" |}.

End ReplayProviderConfig.

Definition ValueError := Exn "ValueError".

Section Factory.

Context {B : Type} {inference : apis_inference}.

(** The [Api] enumeration and [api_protocol_map()] of the distribution
    resolver, and the text of an [Api] in an f-string. *)
Context {Api : Type}.
Variable api_protocol_map : Api → option protocol.
Variable api_str : Api → string.

(** [Path(cache_dir).expanduser()] *)
Variable expanduser : string → path.

(** the dictionary [deps], which the function does not read *)
Context {Deps : Type}.

Definition get_replay_provider_impl (api : Api) (config : ReplayProviderConfig.t)
    (inner_impls : gmap string (@provider B)) (deps : Deps) : M B (@ReplayProvider B) :=
  (* Get the real provider from inner_impls *)
  real_provider_ ←
    match inner_impls !! ReplayProviderConfig.real_provider_id config with
    | None =>
        if String.eqb (ReplayProviderConfig.mode config) "cache_only"
        then mret None
        else raise (ValueError ("Real provider '"
                      +:+ ReplayProviderConfig.real_provider_id config
                      +:+ "' not found in inner implementations"))
    | Some p => mret (Some p)
    end;
  (* Get the protocol for this API *)
  match api_protocol_map api with
  | None => raise (ValueError ("Unknown API: " +:+ api_str api))
  | Some protocol_ =>
      (* Convert string mode to enum *)
      let mode_ :=
        if String.eqb (ReplayProviderConfig.mode config) "cache_only"
        then CACHE_ONLY else CACHE_WITH_FALLBACK in
      ReplayProvider_ real_provider_ protocol_ mode_
        (expanduser (ReplayProviderConfig.cache_dir config))
  end.

End Factory.

(** ** More providers to run the methods on *)

Module Fixture.

Import Mock.

(** a backend whose result holds a plain object, which pydantic cannot
    dump in json mode *)
Definition opaque_completion : @method Z := λ args kw n,
  (Return (PModel V2 "StreamHandle"
             [("stream", PObject "asyncio" "Queue" 0x7f5b41d4e310)]),
   (n + 1)%Z).

Definition OpaqueProvider : @provider Z :=
  Provider "OpaqueProvider"
    (λ name, if String.eqb name "completion" then Some opaque_completion else None).

(** a backend with the lifecycle methods and model registration *)
Definition register : @method Z := λ args kw n,
  match bind_params ["model"] args kw with
  | Return [model] => (Return (PDict [("registered", model)]), (n + 1)%Z)
  | Return _ => (Raise (TypeError "register_model()"), n)
  | Raise e => (Raise e, n)
  end.

Definition ModelProvider : @provider Z :=
  Provider "ModelProvider"
    (λ name,
       if String.eqb name "initialize" then Some lifecycle
       else if String.eqb name "register_model" then Some register
       else if String.eqb name "completion" then Some completion
       else None).

(** a backend whose class is itself named NoProvider *)
Definition NoProvider : @provider Z :=
  Provider "NoProvider"
    (λ name, if String.eqb name "completion" then Some completion else None).

(** a class that accepts whatever it is given *)
Definition lenient_inference : apis_inference :=
  {| ChatCompletionResponse := λ kw, Return kw;
     CompletionResponse := λ kw, Return kw;
     EmbeddingsResponse := λ kw, Return kw |}.

(** a record of a class the decoder knows, with nothing in it *)
Definition empty_record : json :=
  JObj [ ("cache_key", JStr "mockinference_MockRealProvider_completion_4779be7f");
         ("response", JObj []);
         ("metadata",
           JObj [ ("provider_type", JStr "MockRealProvider");
                  ("api_name", JStr "MockInferenceProvider");
                  ("response_type", JStr "CompletionResponse") ]) ].

(** the resolver's table with the one interface of the tests *)
Definition protocols (api : string) : option protocol :=
  if String.eqb api "inference" then Some MockInferenceProvider else None.

Definition home_cache (s : string) : path :=
  if String.eqb s "~/.llama_stack_cache" then ["home"; "user"; ".llama_stack_cache"]
  else [s].

Definition impls : gmap string (@provider Z) := {[ "fireworks" := MockRealProvider ]}.

Definition factory :=
  get_replay_provider_impl (B := Z) (Deps := unit) protocols id home_cache.

End Fixture.

(** * Properties *)

(** ** Validation of the library models *)

(** The test suite of RFC 1321, appendix A.5. *)
Example md5_empty :
  MD5.hexdigest (Str.encode "") = "d41d8cd98f00b204e9800998ecf8427e".
Proof. vm_compute. reflexivity. Qed.

Example md5_abc :
  MD5.hexdigest (Str.encode "abc") = "900150983cd24fb0d6963f7d28e17f72".
Proof. vm_compute. reflexivity. Qed.

Example md5_digits :
  MD5.hexdigest (Str.encode "12345678901234567890123456789012345678901234567890123456789012345678901234567890")
  = "57edf4a22be3c955ac49da2e2107b67a".
Proof. vm_compute. reflexivity. Qed.

Example repr_kwargs :
  param_str [] [("model_id", PStr "test-model"); ("content", PStr "Hello world")]
  = "()_{'model_id': 'test-model', 'content': 'Hello world'}".
Proof. reflexivity. Qed.

Example repr_nested :
  Repr.repr (PList [PStr "a\b"; PInt (-5); PTuple [PBool true];
                    PObject "__main__" "Foo" 0x7f5b41d4e310])
  = "['a\\b', -5, (True,), <__main__.Foo object at 0x7f5b41d4e310>]".
Proof. reflexivity. Qed.

Example lower_replace :
  Str.replace "provider" "" (Str.lower "MockInferenceProvider") = "mockinference".
Proof. reflexivity. Qed.

(** ** Strings *)

Lemma pair_eta {A C} (x : A * C) (a : A) : x.1 = a → x = (a, x.2).
Proof. destruct x. simpl. by intros ->. Qed.

Lemma string_app_inv_head (p s t : string) : p +:+ s = p +:+ t → s = t.
Proof. induction p as [|c p IH]; simpl; [done|]. intros [=]. auto. Qed.

Lemma string_length_app (s t : string) :
  String.length (s +:+ t) = String.length s + String.length t.
Proof. induction s; simpl; [done|]. by f_equal. Qed.

Lemma string_app_inv_tail (s t u : string) : s +:+ u = t +:+ u → s = t.
Proof.
  intros H.
  assert (Hl : String.length s = String.length t).
  { apply (f_equal String.length) in H. rewrite !string_length_app in H. lia. }
  revert t H Hl. induction s as [|c s IH]; intros [|d t]; simpl; try done.
  intros [= -> H] [=]. f_equal. auto.
Qed.

Lemma string_app_nonempty (s t : string) : t ≠ "" → s +:+ t ≠ "".
Proof. destruct s; simpl; [done|discriminate]. Qed.

(** ** The json module turns what it wrote back into the same value *)

Lemma assoc_set_fresh {A} k (v : A) kvs :
  k ∉ kvs.*1 → assoc_set k v kvs = kvs ++ [(k, v)].
Proof.
  induction kvs as [|[k' v'] kvs IH]; simpl; [done|].
  intros Hk. apply not_elem_of_cons in Hk as [Hne Hk].
  destruct (String.eqb_spec k k'); [done|]. by rewrite IH.
Qed.

Lemma dict_of_pairs_app {A} (acc kvs : list (string * A)) :
  NoDup (acc ++ kvs).*1 →
  fold_left (λ acc kv, assoc_set kv.1 kv.2 acc) kvs acc = acc ++ kvs.
Proof.
  revert acc. induction kvs as [|[k v] kvs IH]; intros acc Hnd; simpl.
  - by rewrite app_nil_r.
  - rewrite assoc_set_fresh.
    + rewrite IH; rewrite <- app_assoc; [done|]. exact Hnd.
    + rewrite fmap_app in Hnd. apply NoDup_app in Hnd as (_ & Hd & _).
      intros Hin. apply (Hd _ Hin). simpl. left.
Qed.

Lemma dict_of_pairs_distinct {A} (kvs : list (string * A)) :
  NoDup kvs.*1 → dict_of_pairs kvs = kvs.
Proof. intros. unfold dict_of_pairs. by rewrite dict_of_pairs_app. Qed.

Lemma json_load_dump (x : pyval) :
  json_native x = true → Json.load (Json.dump x) = x.
Proof.
  induction x as [| | | |l IH|l IH|kvs IH|v c fs IH|] using pyval_nested_ind;
    simpl; try done.
  - intros Hn. f_equal. rewrite map_map.
    induction IH as [|y l Hy _ IHl]; simpl in *; [done|].
    apply andb_prop in Hn as [H1 H2]. f_equal; auto.
  - intros Hn. apply andb_prop in Hn as [Hnd Hn].
    apply bool_decide_eq_true in Hnd. f_equal. rewrite map_map.
    assert (Hmap : map (λ kv : string * pyval,
                     let '(k, v) := let '(k, v) := kv in (k, Json.dump v) in
                     (k, Json.load v)) kvs = kvs).
    { clear Hnd. induction IH as [|[k y] l Hy _ IHl]; simpl in *; [done|].
      apply andb_prop in Hn as [H1 H2]. f_equal; [f_equal|]; auto. }
    rewrite Hmap. by apply dict_of_pairs_distinct.
Qed.

(** ** The json-mode dump of a model is made of JSON values *)

Lemma all_some_fst {A} (f : pyval → option A) (kvs : list (string * pyval)) l :
  Pydantic.all_some (map (λ kv, let '(k, v) := kv in (k,.) <$> f v) kvs) = Some l →
  l.*1 = kvs.*1.
Proof.
  revert l. induction kvs as [|[k v] kvs IH]; simpl; intros l.
  - by intros [= <-].
  - destruct (f v) as [y|]; simpl; [|done].
    destruct (Pydantic.all_some _) as [l'|]; simpl; [|done].
    intros [= <-]. simpl. f_equal. by apply IH.
Qed.

Lemma to_jsonable_native (x d : pyval) :
  well_formed x = true → Pydantic.to_jsonable x = Some d → json_native d = true.
Proof.
  revert d.
  induction x as [| | | |l IH|l IH|kvs IH|v c fs IH|] using pyval_nested_ind;
    intros d Hwf Hd; simpl in *.
  1-4: by injection Hd as <-.
  1-2: destruct (Pydantic.all_some _) as [l'|] eqn:El; simpl in Hd; [|done];
       injection Hd as <-; simpl;
       revert l' El; induction IH as [|y l Hy _ IHl]; intros l' El; simpl in *;
       [by injection El as <-|];
       apply andb_prop in Hwf as [H1 H2];
       destruct (Pydantic.to_jsonable y) as [y'|] eqn:Ey; simpl in El; [|done];
       destruct (Pydantic.all_some _) as [l''|] eqn:El'; simpl in El; [|done];
       injection El as <-; simpl; rewrite (Hy y') by done; simpl; by apply IHl.
  3: done.
  2: destruct v; [done|].
  1-2: destruct (Pydantic.all_some _) as [l'|] eqn:El; simpl in Hd; [|done];
       injection Hd as <-; simpl;
       apply andb_prop in Hwf as [Hnd Hwf];
       rewrite (all_some_fst _ _ _ El), Hnd; simpl;
       clear Hnd; revert l' El;
       match goal with H : Forall _ _ |- _ =>
         induction H as [|[k y] l Hy _ IHl] end; intros l' El; simpl in *;
       [by injection El as <-|];
       apply andb_prop in Hwf as [H1 H2];
       destruct (Pydantic.to_jsonable y) as [y'|] eqn:Ey; simpl in El; [|done];
       destruct (Pydantic.all_some _) as [l''|] eqn:El'; simpl in El; [|done];
       injection El as <-; simpl; rewrite (Hy y') by done; simpl; by apply IHl.
Qed.

(** ** How the methods run *)

Section ReplayFacts.

Context {B : Type} {inference : apis_inference}.

Implicit Types (self : @ReplayProvider B) (w : world B) (r : pyval).

Lemma get_cache_path_run self key w :
  _get_cache_path self key w = (Return (cache_path_of self key), touched self key w).
Proof. reflexivity. Qed.

Lemma touched_idemp self key w :
  touched self key (touched self key w) = touched self key w.
Proof.
  unfold touched; simpl. f_equal.
  by rewrite <- (assoc_L (∪)), (idemp_L (∪)).
Qed.

Lemma load_run self key w :
  _load_from_cache self key w = (lookup_result self key w, touched self key w).
Proof.
  unfold _load_from_cache, lookup_result, mbind, M_bind.
  rewrite get_cache_path_run. unfold path_exists, read_json, lift; simpl.
  destruct (files w !! cache_path_of self key) as [j|] eqn:E.
  - rewrite bool_decide_eq_true_2 by eauto. simpl. rewrite E.
    destruct (decode_record (Json.load j)); done.
  - rewrite bool_decide_eq_false_2; [done|]. by intros [? ?].
Qed.

Lemma save_run self key r s w :
  serialize_response r = Return s →
  _save_to_cache self key r w =
    (Return (),
     World (dirs (touched self key w))
       (<[cache_path_of self key := Json.dump (cache_data_of self key r s)]> (files w))
       (backend w) (calls w)).
Proof.
  intros Hs. unfold _save_to_cache, mbind, M_bind.
  rewrite get_cache_path_run. unfold lift. rewrite Hs. reflexivity.
Qed.

Lemma save_raise self key r e w :
  serialize_response r = Raise e →
  _save_to_cache self key r w = (Raise e, touched self key w).
Proof.
  intros Hs. unfold _save_to_cache, mbind, M_bind.
  rewrite get_cache_path_run. unfold lift. by rewrite Hs.
Qed.

Lemma await_run name (f : @method B) args kw w :
  await name f args kw w =
    ((f args kw (backend w)).1,
     World (dirs w) (files w) (f args kw (backend w)).2 (calls w ++ [Call name args kw])).
Proof. unfold await. by destruct (f args kw (backend w)). Qed.

(** [__acall__], run symbolically: every path through the method. *)
Lemma acall_run self m args kw w :
  let key := _generate_cache_key self m args kw in
  let hit := touched self key w in
  __acall__ self m args kw w =
    if negb (bool_decide (m ∈ routes self))
    then (Raise (AttributeError ("Unknown method: " +:+ m)), w)
    else
      match lookup_result self key w with
      | Raise e => (Raise e, hit)
      | Return v =>
          if negb (is_None v) then (Return v, hit)
          else
            match mode self with
            | CACHE_ONLY =>
                (Raise (RuntimeError ("Cache miss for " +:+ key
                                        +:+ " and mode is CACHE_ONLY")), hit)
            | CACHE_WITH_FALLBACK =>
                match real_provider self with
                | None =>
                    (Raise (RuntimeError ("Cache miss for " +:+ key
                              +:+ " and no real provider available")), hit)
                | Some p =>
                    match getattr p m with
                    | Raise e => (Raise e, hit)
                    | Return f =>
                        let '(o, b') := f args kw (backend w) in
                        match o with
                        | Raise e =>
                            (Raise e, served self m args kw b' (files w) w)
                        | Return r =>
                            match serialize_response r with
                            | Raise e =>
                                (Raise e, served self m args kw b' (files w) w)
                            | Return s =>
                                (Return r,
                                 served self m args kw b'
                                   (<[cache_path_of self key :=
                                        Json.dump (cache_data_of self key r s)]>
                                      (files w)) w)
                            end
                        end
                    end
                end
            end
      end.
Proof.
  intros key hit. unfold __acall__.
  destruct (negb (bool_decide (m ∈ routes self))); [done|].
  fold key. unfold mbind, M_bind at 1. rewrite load_run. fold hit.
  destruct (lookup_result self key w) as [v|e]; [|done].
  destruct (negb (is_None v)); [done|].
  destruct (mode self); [done|].
  destruct (real_provider self) as [p|]; [|done].
  unfold mbind, M_bind, lift. destruct (getattr p m) as [f|e]; [|done].
  rewrite await_run. subst hit; simpl.
  destruct (f args kw (backend w)) as [[r|e] b'] eqn:Ef; simpl; [|done].
  destruct (serialize_response r) as [s|e] eqn:Es.
  - rewrite (save_run _ _ _ _ _ Es). unfold served, touched; simpl.
    do 2 f_equal. by rewrite <- (assoc_L (∪)), (idemp_L (∪)).
  - rewrite (save_raise _ _ _ _ _ Es). unfold served, touched; simpl.
    do 2 f_equal. by rewrite <- (assoc_L (∪)), (idemp_L (∪)).
Qed.

End ReplayFacts.

(** ** The dispatcher *)

Section Dispatch.

Context {B : Type} {inference : apis_inference}.
Implicit Types (self : @ReplayProvider B) (w : world B) (r : pyval).

Lemma routes_known self m :
  m ∈ routes self → negb (bool_decide (m ∈ routes self)) = false.
Proof. intros. by rewrite bool_decide_eq_true_2. Qed.

Lemma lookup_absent self key w :
  files w !! cache_path_of self key = None → lookup_result self key w = Return PNone.
Proof. unfold lookup_result. by intros ->. Qed.

(** C2.  In CACHE_ONLY mode a call of a known operation for which no
    record file exists raises the cache-miss error, whose message holds
    the computed key and the mode; the real backend is not called (its
    state and the list of the calls it served stay as they were) and no
    file changes. *)
Theorem cache_only_miss_raises self m args kw w :
  mode self = CACHE_ONLY →
  m ∈ routes self →
  files w !! cache_path_of self (_generate_cache_key self m args kw) = None →
  (__acall__ self m args kw w).1 =
    Raise (RuntimeError ("Cache miss for " +:+ _generate_cache_key self m args kw
                           +:+ " and mode is CACHE_ONLY"))
  ∧ calls (__acall__ self m args kw w).2 = calls w
  ∧ backend (__acall__ self m args kw w).2 = backend w
  ∧ files (__acall__ self m args kw w).2 = files w.
Proof.
  intros Hmode Hm Hfile. rewrite acall_run; simpl.
  rewrite (routes_known _ _ Hm), (lookup_absent _ _ _ Hfile), Hmode. done.
Qed.

(** C5.  When the real backend raises during a fallback-mode miss, the
    call raises that very exception, the backend has been called once
    and no more, and no file is written or changed. *)
Theorem backend_error_propagates self m args kw w p f e b' :
  mode self = CACHE_WITH_FALLBACK →
  real_provider self = Some p →
  m ∈ routes self →
  methods p m = Some f →
  lookup_result self (_generate_cache_key self m args kw) w = Return PNone →
  f args kw (backend w) = (Raise e, b') →
  (__acall__ self m args kw w).1 = Raise e
  ∧ files (__acall__ self m args kw w).2 = files w
  ∧ calls (__acall__ self m args kw w).2 = calls w ++ [Call m args kw]
  ∧ backend (__acall__ self m args kw w).2 = b'.
Proof.
  intros Hmode Hp Hm Hf Hmiss Hraise. rewrite acall_run; simpl.
  rewrite (routes_known _ _ Hm), Hmiss, Hmode, Hp. simpl.
  unfold getattr. rewrite Hf, Hraise. done.
Qed.

Lemma decode_null kvs md :
  assoc "response" kvs = Some PNone →
  default (PDict []) (assoc "metadata" kvs) = PDict md →
  decode_record (PDict kvs) = Return PNone.
Proof.
  intros Hr Hmd. unfold decode_record; simpl. rewrite Hr, Hmd; simpl.
  by rewrite andb_false_r.
Qed.

(** C9.  A record file whose response payload is null counts as a
    miss although the file exists: in CACHE_ONLY mode the call raises
    the cache-miss error and the backend is not called; in fallback
    mode the backend is called once and its result replaces the record
    at the same path. *)
Theorem null_payload_is_a_miss self m args kw w j kvs md :
  let key := _generate_cache_key self m args kw in
  m ∈ routes self →
  files w !! cache_path_of self key = Some j →
  Json.load j = PDict kvs →
  assoc "response" kvs = Some PNone →
  default (PDict []) (assoc "metadata" kvs) = PDict md →
  (mode self = CACHE_ONLY →
     (__acall__ self m args kw w).1 =
       Raise (RuntimeError ("Cache miss for " +:+ key +:+ " and mode is CACHE_ONLY"))
     ∧ calls (__acall__ self m args kw w).2 = calls w
     ∧ files (__acall__ self m args kw w).2 = files w)
  ∧ (mode self = CACHE_WITH_FALLBACK →
     ∀ p f r b' s,
       real_provider self = Some p →
       methods p m = Some f →
       f args kw (backend w) = (Return r, b') →
       serialize_response r = Return s →
       (__acall__ self m args kw w).1 = Return r
       ∧ calls (__acall__ self m args kw w).2 = calls w ++ [Call m args kw]
       ∧ files (__acall__ self m args kw w).2 =
           <[cache_path_of self key := Json.dump (cache_data_of self key r s)]> (files w)
       ∧ size (files (__acall__ self m args kw w).2) = size (files w)).
Proof.
  intros key Hm Hfile Hload Hnull Hmd.
  assert (Hmiss : lookup_result self key w = Return PNone).
  { unfold lookup_result. rewrite Hfile, Hload. by eapply decode_null. }
  split; intros Hmode.
  - rewrite acall_run; simpl. fold key.
    by rewrite (routes_known _ _ Hm), Hmiss, Hmode.
  - intros p f r b' s Hp Hf Hcall Hs. rewrite acall_run; simpl. fold key.
    rewrite (routes_known _ _ Hm), Hmiss, Hmode, Hp. simpl.
    unfold getattr. rewrite Hf, Hcall, Hs. simpl. repeat split.
    rewrite map_size_insert, Hfile. done.
Qed.

End Dispatch.

Section Frame.

Context {B : Type} {inference : apis_inference}.
Implicit Types (self : @ReplayProvider B) (w : world B) (r : pyval).

Lemma init_run (protocol_ : protocol) (p : option (@provider B)) mode_ cd w :
  dirs (__init__ protocol_ p mode_ cd w).2 = dirs w ∪ list_to_set (ancestors cd)
  ∧ files (__init__ protocol_ p mode_ cd w).2 = files w.
Proof. done. Qed.

(** C4, amended.  The record written on a fallback-mode miss is the
    only change a call makes to the files of the cache: a hit, a
    CACHE_ONLY miss and every failing call leave all files as they
    were.  Directories are not made on the first write: the
    constructor makes the cache root, and every call of a known
    operation, hit or miss, in either mode, makes the directory of the
    record before it looks the record up. *)
Theorem only_fallback_miss_writes self m args kw w :
  let key := _generate_cache_key self m args kw in
  let p := cache_path_of self key in
  let o := (__acall__ self m args kw w).1 in
  let w' := (__acall__ self m args kw w).2 in
  (files w' = files w
   ∨ (mode self = CACHE_WITH_FALLBACK
      ∧ lookup_result self key w = Return PNone
      ∧ ∃ r s, o = Return r ∧ serialize_response r = Return s
               ∧ files w' = <[p := Json.dump (cache_data_of self key r s)]> (files w)))
  ∧ (mode self = CACHE_ONLY → files w' = files w)
  ∧ (∀ v, m ∈ routes self → lookup_result self key w = Return v →
          is_None v = false →
          o = Return v ∧ files w' = files w ∧ calls w' = calls w)
  ∧ (m ∈ routes self → dirs w' = dirs w ∪ list_to_set (ancestors (parent p)))
  ∧ (m ∉ routes self → w' = w)
  ∧ (∀ protocol_ rp mode_ cd,
       dirs (__init__ protocol_ rp mode_ cd w).2 = dirs w ∪ list_to_set (ancestors cd)).
Proof.
  intros key p o w'. subst o w'. rewrite acall_run; simpl. fold key p.
  destruct (decide (m ∈ routes self)) as [Hm|Hm].
  - rewrite (routes_known _ _ Hm).
    destruct (lookup_result self key w) as [v|e] eqn:Hl;
      [destruct (is_None v) eqn:Hn; simpl;
       [destruct v; try discriminate Hn;
        destruct (mode self) eqn:Hmode;
        [|destruct (real_provider self) as [pr|];
          [destruct (getattr pr m) as [f|e];
           [destruct (f args kw (backend w)) as [[r|e] b'];
            [destruct (serialize_response r) as [s|e] eqn:Hs|]|]|]]|]|];
      simpl;
      (split; [first [by left | right; repeat split; by eexists _, _] |]);
      repeat split; intros; simplify_eq; done.
  - rewrite bool_decide_eq_false_2 by done. simpl.
    split; [by left|]. repeat split; intros; simplify_eq; done.
Qed.

End Frame.

(** ** The response codec *)

Section Codec.

Context {B : Type} {inference : apis_inference}.
Implicit Types (self : @ReplayProvider B) (w : world B) (r s : pyval).

Lemma reconstruct_registry c d :
  reconstruct (PStr c) d = (λ C, call_ctor c C d) <$> registry c.
Proof.
  unfold reconstruct, registry, eq_str.
  destruct (String.eqb_spec c "ChatCompletionResponse") as [->|_]; [done|].
  destruct (String.eqb_spec c "CompletionResponse") as [->|_]; [done|].
  destruct (String.eqb_spec c "EmbeddingsResponse") as [->|_]; done.
Qed.

Lemma reconstruct_unknown t d :
  (∀ c, t = PStr c → registry c = None) → reconstruct t d = None.
Proof.
  intros Hreg. destruct t; try done.
  rewrite reconstruct_registry, (Hreg _ eq_refl). done.
Qed.

Lemma registry_named c C : registry c = Some C → c ≠ "".
Proof. by intros H ->. Qed.

(** C6.  For a record on disk whose [response_type] is not one of the
    classes the decoder knows, or for which building the class raises,
    [_load_from_cache] returns the stored response as json.load gave
    it, and raises nothing. *)
Theorem decode_degrades_to_raw self key w j kvs md :
  let response_data := default PNone (assoc "response" kvs) in
  let response_type := default PNone (assoc "response_type" md) in
  files w !! cache_path_of self key = Some j →
  Json.load j = PDict kvs →
  default (PDict []) (assoc "metadata" kvs) = PDict md →
  ((∀ c, response_type = PStr c → registry c = None)
   ∨ (∃ e, reconstruct response_type response_data = Some (Raise e))) →
  (_load_from_cache self key w).1 = Return response_data.
Proof.
  intros response_data response_type Hfile Hload Hmd Hfail.
  rewrite load_run; simpl. unfold lookup_result. rewrite Hfile, Hload.
  unfold decode_record; simpl. rewrite Hmd; simpl.
  fold response_data response_type.
  destruct (truthy response_type && truthy response_data); [|done].
  destruct Hfail as [Hreg|[e He]].
  - by rewrite (reconstruct_unknown _ _ Hreg).
  - by rewrite He.
Qed.

Lemma serialize_shape r s :
  serialize_response r = Return s → (∃ d, s = PDict d) ∨ (∃ t, s = PStr t).
Proof.
  unfold serialize_response. destruct r as [| | | | | | |[] c fs|]; simpl;
    try (intros [= <-]; right; by eexists).
  - intros [= <-]. left. by eexists.
  - destruct (Pydantic.all_some _); simpl; intros [= <-]. left. by eexists.
Qed.

Lemma decode_cache_data self key r s :
  decode_record (Json.load (Json.dump (cache_data_of self key r s))) =
    let d := Json.load (Json.dump s) in
    if truthy (PStr (type_name r)) && truthy d then
      match reconstruct (PStr (type_name r)) d with
      | Some (Return obj) => Return obj
      | _ => Return d
      end
    else Return d.
Proof.
  unfold decode_record; simpl.
  destruct (_ && _); [|done].
  by destruct (reconstruct _ _) as [[]|].
Qed.

Lemma dump_model_fields c fs d :
  Pydantic.to_jsonable (PModel V2 c fs) = Some (PDict d) → d.*1 = fs.*1.
Proof.
  simpl. destruct (Pydantic.all_some _) as [l|] eqn:El; simpl; [|done].
  intros [= <-]. by eapply all_some_fst.
Qed.

Lemma dumped_model c fs d :
  serialize_response (PModel V2 c fs) = Return (PDict d) →
  well_formed (PModel V2 c fs) = true →
  Json.load (Json.dump (PDict d)) = PDict d ∧ d.*1 = fs.*1.
Proof.
  unfold serialize_response. cbn [has_model_dump].
  destruct (Pydantic.to_jsonable (PModel V2 c fs)) as [x|] eqn:Ex; [|done].
  intros [= ->] Hwf. split.
  - apply json_load_dump. by apply (to_jsonable_native (PModel V2 c fs)).
  - by eapply dump_model_fields.
Qed.

(** The value a hit gives for the record written for [r]. *)
Lemma hit_model self key c C fs d :
  serialize_response (PModel V2 c fs) = Return (PDict d) →
  registry c = Some C →
  well_formed (PModel V2 c fs) = true →
  fs ≠ [] →
  C d = Return fs →
  decode_record (Json.load (Json.dump (cache_data_of self key (PModel V2 c fs) (PDict d))))
  = Return (PModel V2 c fs).
Proof.
  intros Hs HC Hwf Hfs HCd. rewrite decode_cache_data. cbv zeta.
  destruct (dumped_model _ _ _ Hs Hwf) as [-> Hk].
  rewrite reconstruct_registry. cbn [type_name]. rewrite HC. simpl.
  rewrite HCd.
  assert (c ≠ "") as Hc by (by eapply registry_named).
  apply String.eqb_neq in Hc. rewrite Hc. simpl.
  destruct d; [by destruct fs|done].
Qed.

Lemma hit_str self key t :
  decode_record (Json.load (Json.dump (cache_data_of self key (PStr t) (PStr t))))
  = Return (PStr t).
Proof. rewrite decode_cache_data. simpl. by destruct (negb _). Qed.

Lemma hit_unregistered self key r s :
  registry (type_name r) = None →
  decode_record (Json.load (Json.dump (cache_data_of self key r s)))
  = Return (Json.load (Json.dump s)).
Proof.
  intros HC. rewrite decode_cache_data. cbv zeta.
  rewrite reconstruct_registry, HC. simpl. by destruct (_ && _).
Qed.

Lemma hit_not_none self key r s :
  serialize_response r = Return s →
  ∃ r', decode_record (Json.load (Json.dump (cache_data_of self key r s))) = Return r'
        ∧ is_None r' = false.
Proof.
  intros Hs. rewrite decode_cache_data. cbv zeta.
  assert (Hd : is_None (Json.load (Json.dump s)) = false).
  { destruct (serialize_shape _ _ Hs) as [[x ->]|[t ->]]; done. }
  destruct (_ && _); [|eexists; split; [reflexivity|done]].
  rewrite reconstruct_registry.
  destruct (registry (type_name r)) as [C|]; simpl;
    [|eexists; split; [reflexivity|done]].
  unfold call_ctor.
  destruct (Json.load (Json.dump s)) as [| | | | | |kw| |];
    try (eexists; split; [reflexivity|done]).
  destruct (C kw); eexists; (split; [reflexivity|done]).
Qed.

Lemma run_n_fixed {A} (c : M B A) w (o : outcome A) n :
  c w = (o, w) → run_n n c w = (replicate n o, w).
Proof. intros Hc. induction n as [|n IH]; simpl; [done|]. by rewrite Hc, IH. Qed.

(** C1, amended.  In fallback mode with a real backend, the first call
    of a known operation for which no record file exists calls the
    backend once, adds one file and returns the backend's result.
    Every later call with the same arguments leaves the backend, its
    calls and the files as they are and returns one and the same
    value; that value equals the first result when the result is a
    string, or a model of a class the decoder knows which that class
    builds back from its dump; for a model of any other class it is
    the stored mapping. *)
Theorem miss_then_hit self m args kw w p f r b' s :
  let key := _generate_cache_key self m args kw in
  let first := __acall__ self m args kw w in
  mode self = CACHE_WITH_FALLBACK →
  real_provider self = Some p →
  m ∈ routes self →
  methods p m = Some f →
  files w !! cache_path_of self key = None →
  f args kw (backend w) = (Return r, b') →
  serialize_response r = Return s →
  first.1 = Return r
  ∧ calls first.2 = calls w ++ [Call m args kw]
  ∧ size (files first.2) = S (size (files w))
  ∧ ∃ r',
      (∀ n, run_n n (__acall__ self m args kw) first.2
            = (replicate n (Return r'), first.2))
      ∧ (∀ t, r = PStr t → r' = r)
      ∧ (∀ c C fs d, r = PModel V2 c fs → s = PDict d → registry c = Some C →
           well_formed r = true → fs ≠ [] → C d = Return fs → r' = r)
      ∧ (has_dict r = true → registry (type_name r) = None →
           r' = Json.load (Json.dump s)).
Proof.
  intros key first Hmode Hp Hm Hf Hfile Hcall Hs.
  assert (Hfirst : first =
    (Return r, served self m args kw b'
                 (<[cache_path_of self key := Json.dump (cache_data_of self key r s)]>
                    (files w)) w)).
  { subst first. rewrite acall_run; cbv zeta. fold key.
    rewrite (routes_known _ _ Hm), (lookup_absent _ _ _ Hfile), Hmode, Hp.
    cbn [is_None negb]. unfold getattr. by rewrite Hf, Hcall, Hs. }
  rewrite Hfirst. cbn [fst snd]. split; [done|]. split; [done|].
  split. { cbn [served files]. by rewrite map_size_insert, Hfile. }
  destruct (hit_not_none self key r s Hs) as (r' & Hr' & Hnn).
  exists r'. split; [|split; [|split]].
  - intros n. apply run_n_fixed. rewrite acall_run; cbv zeta. fold key.
    rewrite (routes_known _ _ Hm). unfold lookup_result at 1.
    cbn [served files]. rewrite lookup_insert_eq, Hr', Hnn. cbn [negb].
    f_equal. unfold served, touched. cbn [dirs files backend calls]. f_equal.
    by rewrite <- (assoc_L (∪)), (idemp_L (∪)).
  - intros t ->. injection Hs as <-. rewrite hit_str in Hr'. by injection Hr'.
  - intros c C fs d -> -> HC Hwf Hfs HCd.
    rewrite (hit_model _ _ _ _ _ _ Hs HC Hwf Hfs HCd) in Hr'. by injection Hr'.
  - intros _ HC. rewrite (hit_unregistered _ _ _ _ HC) in Hr'. by injection Hr'.
Qed.

End Codec.

(** ** The cache key *)

Lemma md5_digest_length (msg : list Z) : length (MD5.digest msg) = 16.
Proof.
  unfold MD5.digest. destruct (fold_left _ _ _).
  unfold MD5.le_bytes. by rewrite !length_app, !length_map, !length_seq.
Qed.

Lemma hex_length (bs : list Z) :
  String.length (Str.concat (map Str.hex_byte bs)) = 2 * length bs.
Proof.
  induction bs as [|b bs IH]; [done|].
  cbn [map Str.concat]. rewrite string_length_app, IH. cbn [length]. simpl. lia.
Qed.

Lemma take_length (n : nat) (s : string) :
  (n ≤ String.length s)%nat → String.length (Str.take n s) = n.
Proof.
  unfold Str.take. revert s. induction n as [|n IH]; intros [|c s]; simpl; try done.
  - lia.
  - intros Hn. f_equal. apply IH. lia.
Qed.

Lemma param_hash_length (args : list pyval) (kw : kwargs) :
  String.length (param_hash args kw) = 8.
Proof.
  unfold param_hash, MD5.hexdigest. apply take_length.
  rewrite hex_length, md5_digest_length. lia.
Qed.

Section Key.

Context {B : Type} {inference : apis_inference}.
Implicit Types (self : @ReplayProvider B) (w : world B).

(** C3, amended.  The cache key is a function of the operation name,
    the names of the interface and of the backend's class, and the
    text [f"{args}_{kwargs}"]: two argument sets with the same text
    have the same key, in one process and across restarts, and the key
    is the three names followed by eight characters that the text
    alone decides.  The text lists the keyword arguments in insertion
    order and holds the repr of every argument, so the key does depend
    on both. *)
Theorem cache_key_deterministic self m args1 kw1 args2 kw2 :
  param_str args1 kw1 = param_str args2 kw2 →
  _generate_cache_key self m args1 kw1 = _generate_cache_key self m args2 kw2
  ∧ ∃ h, String.length h = 8
         ∧ h = Str.take 8 (MD5.hexdigest (Str.encode (param_str args2 kw2)))
         ∧ _generate_cache_key self m args1 kw1
           = api_name self +:+ "_" +:+ provider_type self +:+ "_" +:+ m +:+ "_" +:+ h.
Proof.
  intros Hstr. unfold _generate_cache_key, param_hash. rewrite Hstr.
  split; [done|]. eexists. split; [|split; reflexivity].
  apply (param_hash_length args2 kw2).
Qed.

Lemma cache_key_inj self m args1 kw1 args2 kw2 :
  _generate_cache_key self m args1 kw1 = _generate_cache_key self m args2 kw2 →
  param_hash args1 kw1 = param_hash args2 kw2.
Proof.
  unfold _generate_cache_key. intros H.
  by repeat apply string_app_inv_head in H.
Qed.

Lemma path_join_last p s : s ≠ "" → path_join p s = p ++ [s].
Proof. intros Hs. unfold path_join. by apply String.eqb_neq in Hs as ->. Qed.

Lemma cache_path_inj self key1 key2 :
  cache_path_of self key1 = cache_path_of self key2 → key1 = key2.
Proof.
  unfold cache_path_of. intros H.
  rewrite (path_join_last _ (key1 +:+ ".json")),
    (path_join_last _ (key2 +:+ ".json")) in H by (by apply string_app_nonempty).
  apply app_inj_tail in H as [_ H]. by apply string_app_inv_tail in H.
Qed.

Lemma acall_miss_inv self m args kw w r w' :
  let key := _generate_cache_key self m args kw in
  files w !! cache_path_of self key = None →
  __acall__ self m args kw w = (Return r, w') →
  ∃ b' s, w' = served self m args kw b'
                 (<[cache_path_of self key := Json.dump (cache_data_of self key r s)]>
                    (files w)) w.
Proof.
  intros key Hfile. rewrite acall_run; cbv zeta. fold key.
  destruct (negb _); [done|].
  rewrite (lookup_absent _ _ _ Hfile). cbn [is_None negb].
  destruct (mode self); [done|].
  destruct (real_provider self) as [p|]; [|done].
  destruct (getattr p m) as [f|]; [|done].
  destruct (f args kw (backend w)) as [[r0|] b']; [|done].
  destruct (serialize_response r0) as [s|]; [|done].
  intros [= -> <-]. by exists b', s.
Qed.

(** C8, amended.  Two argument sets whose texts differ in the first
    eight digits of their MD5 have distinct keys and distinct record
    files, and two calls with them on a cache that holds neither
    record reach the backend twice and add two files.  Argument sets
    whose texts agree on those eight digits share one key. *)
Theorem distinct_hashes_distinct_records self m args1 kw1 args2 kw2 :
  let key1 := _generate_cache_key self m args1 kw1 in
  let key2 := _generate_cache_key self m args2 kw2 in
  param_hash args1 kw1 ≠ param_hash args2 kw2 →
  key1 ≠ key2
  ∧ cache_path_of self key1 ≠ cache_path_of self key2
  ∧ ∀ w r1 w1 r2 w2,
      files w !! cache_path_of self key1 = None →
      files w !! cache_path_of self key2 = None →
      __acall__ self m args1 kw1 w = (Return r1, w1) →
      __acall__ self m args2 kw2 w1 = (Return r2, w2) →
      size (files w2) = size (files w) + 2
      ∧ calls w2 = calls w ++ [Call m args1 kw1; Call m args2 kw2].
Proof.
  intros key1 key2 Hhash.
  assert (Hkey : key1 ≠ key2) by (intros H; by apply Hhash, (cache_key_inj self m)).
  assert (Hpath : cache_path_of self key1 ≠ cache_path_of self key2)
    by (intros H; by apply Hkey, (cache_path_inj self)).
  split; [done|]. split; [done|].
  intros w r1 w1 r2 w2 H1 H2 Hc1 Hc2.
  apply acall_miss_inv in Hc1 as (b1 & s1 & ->); [|done].
  apply acall_miss_inv in Hc2 as (b2 & s2 & ->).
  2: { cbn [served files]. by rewrite lookup_insert_ne. }
  cbn [served files calls]. fold key1 key2. split.
  - rewrite !map_size_insert_None; [lia|done|by rewrite lookup_insert_ne].
  - by rewrite <- app_assoc.
Qed.

(** C10, amended.  The record [_save_to_cache] writes holds the name
    of the interface as [api_name], and the directory the file lies in
    is named by that name in lower case with every "provider" taken
    out. *)
Theorem api_name_normalised_in_path self key r s w :
  serialize_response r = Return s →
  ∃ j, files (_save_to_cache self key r w).2 !! cache_path_of self key = Some j
    ∧ record_api_name j = Some (__name__ (proto self))
    ∧ ∀ n, record_api_name j = Some n →
        let dir := Str.replace "provider" "" (Str.lower n) in
        cache_path_of self key
        = path_join (path_join (path_join (cache_dir self) dir) (provider_type self))
            (key +:+ ".json")
        ∧ (dir ≠ "" → cache_path_of self key !! length (cache_dir self) = Some dir).
Proof.
  intros Hs. rewrite (save_run _ _ _ _ _ Hs). cbn [snd files].
  eexists. split; [apply lookup_insert_eq|]. split; [done|].
  intros n [= <-]. split; [done|].
  intros Hdir. unfold cache_path_of, api_name.
  rewrite (path_join_last _ _ Hdir).
  unfold path_join. repeat case_match;
    rewrite <- ?app_assoc; by rewrite lookup_app_r, Nat.sub_diag.
Qed.

End Key.

(** * The test suite's scenarios *)

Import Mock.

Local Ltac known_route := refine (bool_decide_unpack _ _); vm_compute; exact I.
Local Ltac absent H :=
  let H' := fresh in
  pose proof (bool_decide_pack _ H) as H'; vm_compute in H'; exact H'.

(** [test_cache_miss_with_fallback]: the backend is called once and one
    file appears. *)
Example test_cache_miss_with_fallback :
  let t := with_provider CACHE_WITH_FALLBACK
             (λ self, acall self "completion" [] hello) fresh in
  t.1 = Return (PDict [ ("content", PStr "Response to: Hello world");
                        ("model", PStr "test-model");
                        ("call_number", PInt 1) ])
  ∧ backend t.2 = 1%Z
  ∧ size (files t.2) = 1.
Proof. vm_compute. done. Qed.

(** [test_cache_hit] asserts that the second response equals the first.
    The backend returns a dictionary, which has neither [model_dump] nor
    [dict]: the record holds its [str], and the hit returns that string. *)
Example test_cache_hit :
  let t := with_provider CACHE_WITH_FALLBACK
             (λ self, response1 ← acall self "completion" [] hello;
                      response2 ← acall self "completion" [] hello;
                      mret (response1, response2)) fresh in
  t.1 = Return (PDict [ ("content", PStr "Response to: Hello world");
                        ("model", PStr "test-model");
                        ("call_number", PInt 1) ],
                PStr "{'content': 'Response to: Hello world', 'model': 'test-model', 'call_number': 1}")
  ∧ backend t.2 = 1%Z
  ∧ size (files t.2) = 1.
Proof. vm_compute. done. Qed.

(** [test_cache_only_mode_with_miss] *)
Example test_cache_only_mode_with_miss :
  let t := with_provider CACHE_ONLY
             (λ self, acall self "completion" [] hello) fresh in
  t.1 = Raise (RuntimeError "Cache miss for mockinference_MockRealProvider_completion_4779be7f and mode is CACHE_ONLY")
  ∧ backend t.2 = 0%Z.
Proof. vm_compute. done. Qed.

(** [test_different_parameters_different_cache] *)
Example test_different_parameters_different_cache :
  let t := with_provider CACHE_WITH_FALLBACK
             (λ self,
                acall self "completion" []
                  [("model_id", PStr "test-model"); ("content", PStr "First message")];;
                acall self "completion" []
                  [("model_id", PStr "test-model"); ("content", PStr "Second message")])
             fresh in
  backend t.2 = 2%Z ∧ size (files t.2) = 2.
Proof. vm_compute. done. Qed.

Example init_ready :
  __init__ MockInferenceProvider (Some MockRealProvider) CACHE_WITH_FALLBACK
    temp_cache_dir fresh
  = (Return (replay MockInferenceProvider (Some MockRealProvider) CACHE_WITH_FALLBACK),
     ready).
Proof.
  unfold __init__, replay, mbind, M_bind, mkdir, mret, M_ret, ready, fresh.
  cbn [dirs files backend calls]. do 2 f_equal.
Qed.

(** A record with a null payload, in fallback mode: the backend is
    called and its result takes the place of the record. *)
Example null_payload_fallback :
  let self := replay MockInferenceProvider (Some MockRealProvider) CACHE_WITH_FALLBACK in
  let t := acall self "completion" [] hello (holding null_record) in
  t.1 = Return (PDict [ ("content", PStr "Response to: Hello world");
                        ("model", PStr "test-model");
                        ("call_number", PInt 1) ])
  ∧ backend t.2 = 1%Z
  ∧ size (files t.2) = 1
  ∧ (record_api_name <$> files t.2 !! hello_path) = Some (Some "MockInferenceProvider").
Proof. vm_compute. done. Qed.

(** * Where the code departs from a general statement *)

(** C1.  An operation that returns a model of a class the decoder does
    not know: the first call returns the model, the second the stored
    mapping, which is not equal to it. *)
Lemma replay_of_unknown_model_differs :
  let self := replay Agents (Some MockAgents) CACHE_WITH_FALLBACK in
  let call := acall self "delete_openai_response" [] [("response_id", PStr "resp_1")] in
  (call ready).1 = Return (PModel V2 "OpenAIDeleteResponseObject"
                             [("id", PStr "resp_1"); ("object", PStr "response");
                              ("deleted", PBool true)])
  ∧ length (calls (call ready).2) = 1
  ∧ (call (call ready).2).1 = Return (PDict [("id", PStr "resp_1");
                                             ("object", PStr "response");
                                             ("deleted", PBool true)])
  ∧ (call (call ready).2).1 ≠ (call ready).1.
Proof. vm_compute. repeat split; discriminate. Qed.

(** C3.  The same keyword arguments in another insertion order, equal
    as dictionaries, give another key. *)
Lemma key_depends_on_kwargs_order :
  let self := replay MockInferenceProvider (Some MockRealProvider) CACHE_WITH_FALLBACK in
  let kw1 := [("model_id", PStr "test-model"); ("content", PStr "Hello world")] in
  let kw2 := [("content", PStr "Hello world"); ("model_id", PStr "test-model")] in
  kw1 ≡ₚ kw2
  ∧ NoDup kw1.*1
  ∧ _generate_cache_key self "completion" [] kw1
      = "mockinference_MockRealProvider_completion_4779be7f"
  ∧ _generate_cache_key self "completion" [] kw2
      = "mockinference_MockRealProvider_completion_5d9c9a59"
  ∧ _generate_cache_key self "completion" [] kw1
      ≠ _generate_cache_key self "completion" [] kw2.
Proof.
  cbv zeta. split; [apply perm_swap|]. split; [known_route|].
  vm_compute. repeat split; discriminate.
Qed.

(** The key of a plain object holds its address: the same object at
    another address, as after a restart, has another key. *)
Example key_depends_on_address :
  let self := replay MockInferenceProvider (Some MockRealProvider) CACHE_WITH_FALLBACK in
  (_generate_cache_key self "completion" [PObject "__main__" "Prompt" 0x7f5b41d4e310] [])
  ≠ (_generate_cache_key self "completion" [PObject "__main__" "Prompt" 0x7f5b41d4e450] []).
Proof. vm_compute. discriminate. Qed.

(** C4.  A CACHE_ONLY miss on a cache without files raises, and has
    made the directory of the record; the constructor has made the
    cache root before any call. *)
Lemma cache_only_miss_makes_directories :
  let self := replay MockInferenceProvider (Some MockRealProvider) CACHE_ONLY in
  let t := acall self "completion" [] hello ready in
  mode self = CACHE_ONLY
  ∧ files ready = ∅
  ∧ t.1 = Raise (RuntimeError "Cache miss for mockinference_MockRealProvider_completion_4779be7f and mode is CACHE_ONLY")
  ∧ (["tmp"; "tmpcache"; "mockinference"; "MockRealProvider"] ∉ dirs ready)
  ∧ (["tmp"; "tmpcache"; "mockinference"; "MockRealProvider"] ∈ dirs t.2)
  ∧ dirs t.2 ≠ dirs ready
  ∧ (temp_cache_dir ∉ dirs fresh)
  ∧ (temp_cache_dir ∈ dirs (__init__ MockInferenceProvider (Some MockRealProvider)
                              CACHE_ONLY temp_cache_dir fresh).2).
Proof.
  cbv zeta.
  assert (Hin : ["tmp"; "tmpcache"; "mockinference"; "MockRealProvider"]
                ∈ dirs (acall (replay MockInferenceProvider (Some MockRealProvider)
                                 CACHE_ONLY) "completion" [] hello ready).2).
  { known_route. }
  assert (Hout : ["tmp"; "tmpcache"; "mockinference"; "MockRealProvider"] ∉ dirs ready).
  { intros H. absent H. }
  split; [reflexivity|]. split; [reflexivity|].
  split; [by vm_compute|]. split; [exact Hout|]. split; [exact Hin|].
  split; [|split].
  - intros Heq. apply Hout. by rewrite <- Heq.
  - intros H. absent H.
  - known_route.
Qed.

(** C8.  Two different argument sets with one key: the second call is
    served from the record of the first, so one file and one backend
    call. *)
Lemma colliding_arguments_share_a_record :
  let self := replay MockInferenceProvider (Some MockRealProvider) CACHE_WITH_FALLBACK in
  let t := (acall self "completion" [] message_a;;
            acall self "completion" [] message_b) ready in
  message_a ≠ message_b
  ∧ _generate_cache_key self "completion" [] message_a
    = _generate_cache_key self "completion" [] message_b
  ∧ t.1 = Return (PStr "{'content': 'Response to: message 99773', 'model': 'test-model', 'call_number': 1}")
  ∧ size (files t.2) = 1
  ∧ length (calls t.2) = 1.
Proof. vm_compute. repeat split; discriminate. Qed.

(** C10.  The record written for the test suite's interface holds
    [api_name] MockInferenceProvider and lies under the directory
    mockinference. *)
Lemma api_name_differs_from_directory :
  let self := replay MockInferenceProvider (Some MockRealProvider) CACHE_WITH_FALLBACK in
  let key := _generate_cache_key self "completion" [] hello in
  let w1 := (acall self "completion" [] hello ready).2 in
  cache_path_of self key
    = ["tmp"; "tmpcache"; "mockinference"; "MockRealProvider";
       "mockinference_MockRealProvider_completion_4779be7f.json"]
  ∧ (record_api_name <$> files w1 !! cache_path_of self key)
    = Some (Some "MockInferenceProvider")
  ∧ cache_path_of self key !! length (cache_dir self) = Some "mockinference"
  ∧ (record_api_name <$> files w1 !! cache_path_of self key)
    ≠ Some (cache_path_of self key !! length (cache_dir self)).
Proof. vm_compute. repeat split; discriminate. Qed.

(** * The theorems at work on the test suite's providers *)

(** C2 on the provider of the test suite, its cache empty. *)
Lemma cache_only_miss_witness :
  let self := replay MockInferenceProvider (Some MockRealProvider) CACHE_ONLY in
  let key := _generate_cache_key self "completion" [] hello in
  mode self = CACHE_ONLY
  ∧ "completion" ∈ routes self
  ∧ files ready !! cache_path_of self key = None
  ∧ (acall self "completion" [] hello ready).1 =
      Raise (RuntimeError ("Cache miss for " +:+ key +:+ " and mode is CACHE_ONLY"))
  ∧ calls (acall self "completion" [] hello ready).2 = calls ready
  ∧ backend (acall self "completion" [] hello ready).2 = backend ready
  ∧ files (acall self "completion" [] hello ready).2 = files ready.
Proof.
  cbv zeta.
  assert (H1 : mode (replay MockInferenceProvider (Some MockRealProvider) CACHE_ONLY)
               = CACHE_ONLY) by reflexivity.
  assert (H2 : "completion"
               ∈ routes (replay MockInferenceProvider (Some MockRealProvider) CACHE_ONLY))
    by known_route.
  assert (H3 : files ready
                 !! cache_path_of (replay MockInferenceProvider (Some MockRealProvider) CACHE_ONLY)
                      (_generate_cache_key
                         (replay MockInferenceProvider (Some MockRealProvider) CACHE_ONLY)
                         "completion" [] hello) = None)
    by (vm_compute; reflexivity).
  exact (conj H1 (conj H2 (conj H3
    (cache_only_miss_raises (inference := no_inference) _ "completion" [] hello ready
       H1 H2 H3)))).
Defined.

(** C5 on a backend that is down. *)
Lemma backend_error_witness :
  let self := replay MockInferenceProvider (Some DownProvider) CACHE_WITH_FALLBACK in
  let t := acall self "completion" [] hello ready in
  lookup_result (inference := no_inference) self
    (_generate_cache_key self "completion" [] hello) ready = Return PNone
  ∧ failing_completion [] hello (backend ready)
    = (Raise (Exn "ConnectionError" "backend unreachable"), 1%Z)
  ∧ t.1 = Raise (Exn "ConnectionError" "backend unreachable")
  ∧ files t.2 = files ready
  ∧ calls t.2 = calls ready ++ [Call "completion" [] hello]
  ∧ backend t.2 = 1%Z.
Proof.
  cbv zeta.
  assert (H : lookup_result (inference := no_inference)
                (replay MockInferenceProvider (Some DownProvider) CACHE_WITH_FALLBACK)
                (_generate_cache_key
                   (replay MockInferenceProvider (Some DownProvider) CACHE_WITH_FALLBACK)
                   "completion" [] hello) ready = Return PNone)
    by (vm_compute; reflexivity).
  split; [exact H|]. split; [reflexivity|].
  apply (backend_error_propagates (inference := no_inference)
           (replay MockInferenceProvider (Some DownProvider) CACHE_WITH_FALLBACK)
           "completion" [] hello ready DownProvider failing_completion);
    [reflexivity | reflexivity | known_route | reflexivity | exact H | reflexivity].
Defined.

(** C9 on a record file whose payload is null, in CACHE_ONLY mode. *)
Lemma null_payload_witness :
  let self := replay MockInferenceProvider (Some MockRealProvider) CACHE_ONLY in
  let w := holding null_record in
  files w !! cache_path_of self (_generate_cache_key self "completion" [] hello)
    = Some null_record
  ∧ (acall self "completion" [] hello w).1 =
      Raise (RuntimeError ("Cache miss for "
                             +:+ _generate_cache_key self "completion" [] hello
                             +:+ " and mode is CACHE_ONLY"))
  ∧ calls (acall self "completion" [] hello w).2 = calls w
  ∧ files (acall self "completion" [] hello w).2 = files w.
Proof.
  cbv zeta.
  assert (H : files (holding null_record)
                !! cache_path_of (replay MockInferenceProvider (Some MockRealProvider) CACHE_ONLY)
                     (_generate_cache_key
                        (replay MockInferenceProvider (Some MockRealProvider) CACHE_ONLY)
                        "completion" [] hello) = Some null_record)
    by (vm_compute; reflexivity).
  split; [exact H|].
  refine (proj1 (null_payload_is_a_miss (inference := no_inference)
                   (replay MockInferenceProvider (Some MockRealProvider) CACHE_ONLY)
                   "completion" [] hello (holding null_record) null_record
                   _ _ _ H _ _ _) _);
    [known_route | reflexivity | reflexivity | reflexivity | reflexivity].
Defined.

(** C4 on a CACHE_ONLY call that finds a record. *)
Lemma only_fallback_miss_writes_witness :
  let self := replay MockInferenceProvider (Some MockRealProvider) CACHE_ONLY in
  files (acall self "completion" [] hello (holding stored_record)).2
  = files (holding stored_record).
Proof.
  cbv zeta.
  exact (proj1 (proj2 (only_fallback_miss_writes (inference := no_inference)
           (replay MockInferenceProvider (Some MockRealProvider) CACHE_ONLY)
           "completion" [] hello (holding stored_record))) eq_refl).
Defined.

(** C6 on a record of the class CompletionResult, which the decoder does
    not know. *)
Lemma decode_degrades_witness :
  let self := replay MockInferenceProvider (Some MockRealProvider) CACHE_ONLY in
  let key := _generate_cache_key self "completion" [] hello in
  files (holding stored_record) !! cache_path_of self key = Some stored_record
  ∧ registry (inference := sample_inference) "CompletionResult" = None
  ∧ (_load_from_cache (inference := sample_inference) self key (holding stored_record)).1
    = Return (PDict [("content", PStr "Response to: Hello world")]).
Proof.
  cbv zeta.
  assert (H : files (holding stored_record)
                !! cache_path_of (replay MockInferenceProvider (Some MockRealProvider) CACHE_ONLY)
                     (_generate_cache_key
                        (replay MockInferenceProvider (Some MockRealProvider) CACHE_ONLY)
                        "completion" [] hello) = Some stored_record)
    by (vm_compute; reflexivity).
  split; [exact H|]. split; [reflexivity|].
  refine (decode_degrades_to_raw (inference := sample_inference) _ _ _ stored_record
            _ _ H eq_refl eq_refl _).
  left. intros c [= <-]. reflexivity.
Defined.

(** C1 on the first call of the test suite and its repetitions. *)
Lemma miss_then_hit_witness :
  let self := replay MockInferenceProvider (Some MockRealProvider) CACHE_WITH_FALLBACK in
  let first := acall self "completion" [] [("model_id", PStr "m"); ("content", PInt 7)] ready in
  first.1 = Return (PDict [ ("content", PStr "Response to: 7"); ("model", PStr "m");
                            ("call_number", PInt 1) ])
  ∧ calls first.2
    = calls ready ++ [Call "completion" [] [("model_id", PStr "m"); ("content", PInt 7)]]
  ∧ size (files first.2) = S (size (files ready))
  ∧ ∃ r', ∀ n, run_n n (acall self "completion" []
                          [("model_id", PStr "m"); ("content", PInt 7)]) first.2
               = (replicate n (Return r'), first.2).
Proof.
  cbv zeta.
  destruct (miss_then_hit (inference := no_inference)
              (replay MockInferenceProvider (Some MockRealProvider) CACHE_WITH_FALLBACK)
              "completion" [] [("model_id", PStr "m"); ("content", PInt 7)] ready
              MockRealProvider completion
              (PDict [ ("content", PStr "Response to: 7"); ("model", PStr "m");
                       ("call_number", PInt 1) ])
              1%Z
              (PStr "{'content': 'Response to: 7', 'model': 'm', 'call_number': 1}")
              eq_refl eq_refl ltac:(known_route) eq_refl
              ltac:(vm_compute; reflexivity) eq_refl eq_refl)
    as (H1 & H2 & H3 & r' & H4 & _).
  split; [exact H1|]. split; [exact H2|]. split; [exact H3|].
  exists r'. exact H4.
Defined.

(** C3 on two argument lists with one text: a model of either pydantic
    generation prints alike. *)
Lemma cache_key_deterministic_witness :
  let self := replay MockInferenceProvider (Some MockRealProvider) CACHE_WITH_FALLBACK in
  let a1 := [PModel V1 "Query" [("text", PStr "2+2")]] in
  let a2 := [PModel V2 "Query" [("text", PStr "2+2")]] in
  param_str a1 [] = param_str a2 []
  ∧ _generate_cache_key self "completion" a1 [] = _generate_cache_key self "completion" a2 [].
Proof.
  cbv zeta. split; [reflexivity|].
  exact (proj1 (cache_key_deterministic
                  (replay MockInferenceProvider (Some MockRealProvider) CACHE_WITH_FALLBACK)
                  "completion" [PModel V1 "Query" [("text", PStr "2+2")]] []
                  [PModel V2 "Query" [("text", PStr "2+2")]] [] eq_refl)).
Defined.

(** C8 on the two messages of [test_different_parameters_different_cache]. *)
Lemma distinct_hashes_witness :
  let self := replay MockInferenceProvider (Some MockRealProvider) CACHE_WITH_FALLBACK in
  let kw1 := [("model_id", PStr "test-model"); ("content", PStr "First message")] in
  let kw2 := [("model_id", PStr "test-model"); ("content", PStr "Second message")] in
  let w1 := (__acall__ (inference := no_inference) self "completion" [] kw1 ready).2 in
  let w2 := (__acall__ (inference := no_inference) self "completion" [] kw2 w1).2 in
  param_hash [] kw1 ≠ param_hash [] kw2
  ∧ _generate_cache_key self "completion" [] kw1 ≠ _generate_cache_key self "completion" [] kw2
  ∧ cache_path_of self (_generate_cache_key self "completion" [] kw1)
    ≠ cache_path_of self (_generate_cache_key self "completion" [] kw2)
  ∧ size (files w2) = size (files ready) + 2
  ∧ calls w2 = calls ready ++ [Call "completion" [] kw1; Call "completion" [] kw2].
Proof.
  cbv zeta.
  set (self := replay MockInferenceProvider (Some MockRealProvider) CACHE_WITH_FALLBACK).
  set (kw1 := [("model_id", PStr "test-model"); ("content", PStr "First message")]).
  set (kw2 := [("model_id", PStr "test-model"); ("content", PStr "Second message")]).
  assert (H : param_hash [] kw1 ≠ param_hash [] kw2) by (vm_compute; discriminate).
  split; [exact H|].
  pose proof (distinct_hashes_distinct_records (inference := no_inference)
                self "completion" [] kw1 [] kw2 H) as (H1 & H2 & H3).
  split; [exact H1|]. split; [exact H2|].
  set (c1 := __acall__ (inference := no_inference) self "completion" [] kw1 ready).
  set (c2 := __acall__ (inference := no_inference) self "completion" [] kw2 c1.2).
  assert (E1 : c1 = (Return (PDict [ ("content", PStr "Response to: First message");
                                      ("model", PStr "test-model");
                                      ("call_number", PInt 1) ]), c1.2)).
  { apply pair_eta. vm_compute. reflexivity. }
  assert (E2 : c2 = (Return (PDict [ ("content", PStr "Response to: Second message");
                                      ("model", PStr "test-model");
                                      ("call_number", PInt 2) ]), c2.2)).
  { apply pair_eta. vm_compute. reflexivity. }
  refine (H3 ready _ c1.2 _ c2.2 _ _ E1 E2); vm_compute; reflexivity.
Defined.

(** C10 on a record written for the interface MockInferenceProvider. *)
Lemma api_name_normalised_witness :
  let self := replay MockInferenceProvider (Some MockRealProvider) CACHE_WITH_FALLBACK in
  serialize_response (PStr "pong") = Return (PStr "pong")
  ∧ ∃ j, files (_save_to_cache self "k" (PStr "pong") ready).2 !! cache_path_of self "k"
         = Some j
       ∧ record_api_name j = Some "MockInferenceProvider".
Proof.
  cbv zeta. split; [reflexivity|].
  destruct (api_name_normalised_in_path
              (replay MockInferenceProvider (Some MockRealProvider) CACHE_WITH_FALLBACK)
              "k" (PStr "pong") (PStr "pong") ready eq_refl) as (j & H1 & H2 & _).
  exists j. exact (conj H1 H2).
Defined.

(** * Further properties of the provider *)

Section Failures.

Context {B : Type} {inference : apis_inference}.
Implicit Types (self : @ReplayProvider B) (w : world B) (r : pyval).

Lemma lookup_result_files self key w1 w2 :
  files w1 = files w2 → lookup_result self key w1 = lookup_result self key w2.
Proof. unfold lookup_result. by intros ->. Qed.

(** X1.  A call of a name outside the routes raises the unknown-method
    error and does nothing else, in either mode and whether or not a
    record file lies at the path of its key: no directory is made, no
    file read, no backend called. *)
Theorem unknown_method_rejected self m args kw w :
  m ∉ routes self →
  __acall__ self m args kw w = (Raise (AttributeError ("Unknown method: " +:+ m)), w).
Proof. intros Hm. rewrite acall_run; cbv zeta. by rewrite bool_decide_eq_false_2. Qed.

(** X2.  A fallback-mode miss on a provider that wraps no backend raises
    the no-provider error, which names the key; no file is written. *)
Theorem no_provider_miss_fails self m args kw w :
  let key := _generate_cache_key self m args kw in
  mode self = CACHE_WITH_FALLBACK →
  real_provider self = None →
  m ∈ routes self →
  lookup_result self key w = Return PNone →
  (__acall__ self m args kw w).1 =
    Raise (RuntimeError ("Cache miss for " +:+ key +:+ " and no real provider available"))
  ∧ files (__acall__ self m args kw w).2 = files w
  ∧ calls (__acall__ self m args kw w).2 = calls w
  ∧ backend (__acall__ self m args kw w).2 = backend w.
Proof.
  intros key Hmode Hp Hm Hmiss. rewrite acall_run; cbv zeta. fold key.
  by rewrite (routes_known _ _ Hm), Hmiss, Hmode, Hp.
Qed.

(** X3.  A fallback-mode miss for an operation the interface declares
    and the backend does not have raises the attribute error of the
    backend's class; the backend serves no call and no file is
    written. *)
Theorem missing_backend_method self m args kw w p :
  mode self = CACHE_WITH_FALLBACK →
  real_provider self = Some p →
  m ∈ routes self →
  methods p m = None →
  lookup_result self (_generate_cache_key self m args kw) w = Return PNone →
  (__acall__ self m args kw w).1 =
    Raise (AttributeError ("'" +:+ provider_class p
                             +:+ "' object has no attribute '" +:+ m +:+ "'"))
  ∧ files (__acall__ self m args kw w).2 = files w
  ∧ calls (__acall__ self m args kw w).2 = calls w
  ∧ backend (__acall__ self m args kw w).2 = backend w.
Proof.
  intros Hmode Hp Hm Hf Hmiss. rewrite acall_run; cbv zeta.
  rewrite (routes_known _ _ Hm), Hmiss, Hmode, Hp. cbn [is_None negb].
  unfold getattr. by rewrite Hf.
Qed.

(** X4.  When the backend returns a result that cannot be serialized,
    the call raises the serializer's error instead of returning the
    result; the backend has been called, nothing is cached, and the same
    call is a miss again. *)
Theorem unserializable_result_not_cached self m args kw w p f r b' e :
  let key := _generate_cache_key self m args kw in
  mode self = CACHE_WITH_FALLBACK →
  real_provider self = Some p →
  m ∈ routes self →
  methods p m = Some f →
  lookup_result self key w = Return PNone →
  f args kw (backend w) = (Return r, b') →
  serialize_response r = Raise e →
  (__acall__ self m args kw w).1 = Raise e
  ∧ calls (__acall__ self m args kw w).2 = calls w ++ [Call m args kw]
  ∧ backend (__acall__ self m args kw w).2 = b'
  ∧ files (__acall__ self m args kw w).2 = files w
  ∧ lookup_result self key (__acall__ self m args kw w).2 = Return PNone.
Proof.
  intros key Hmode Hp Hm Hf Hmiss Hcall Hs. rewrite acall_run; cbv zeta. fold key.
  rewrite (routes_known _ _ Hm), Hmiss, Hmode, Hp. cbn [is_None negb].
  unfold getattr. rewrite Hf, Hcall, Hs. cbn [fst snd served files calls backend].
  repeat split. by rewrite <- Hmiss.
Qed.

Lemma acall_hit self m args kw w v :
  let key := _generate_cache_key self m args kw in
  m ∈ routes self →
  lookup_result self key w = Return v →
  is_None v = false →
  __acall__ self m args kw w = (Return v, touched self key w).
Proof.
  intros key Hm Hv Hn. rewrite acall_run; cbv zeta. fold key.
  by rewrite (routes_known _ _ Hm), Hv, Hn.
Qed.

(** X5.  Once the record of a call decodes to a value, any number of
    repetitions of the call return that value, in either mode and with
    or without a backend, and leave the files, the backend and the calls
    it served as they were. *)
Theorem hit_is_stable self m args kw w v n :
  let key := _generate_cache_key self m args kw in
  let t := run_n n (__acall__ self m args kw) w in
  m ∈ routes self →
  lookup_result self key w = Return v →
  is_None v = false →
  t.1 = replicate n (Return v)
  ∧ files t.2 = files w
  ∧ calls t.2 = calls w
  ∧ backend t.2 = backend w.
Proof.
  intros key t Hm Hv Hn. subst t.
  assert (Hgen : ∀ w0, files w0 = files w → calls w0 = calls w → backend w0 = backend w →
            (run_n n (__acall__ self m args kw) w0).1 = replicate n (Return v)
            ∧ files (run_n n (__acall__ self m args kw) w0).2 = files w
            ∧ calls (run_n n (__acall__ self m args kw) w0).2 = calls w
            ∧ backend (run_n n (__acall__ self m args kw) w0).2 = backend w).
  { induction n as [|n IH]; intros w0 Hf Hc Hb; [done|].
    cbn [run_n]. rewrite (acall_hit self m args kw w0 v Hm); [|by rewrite <- Hv; apply lookup_result_files|done].
    fold key. specialize (IH (touched self key w0) Hf Hc Hb).
    destruct (run_n n _ _) as [os w']. cbn [fst snd] in *.
    destruct IH as (-> & ? & ? & ?). done. }
  by apply Hgen.
Qed.

Lemma acall_cache_only_frame self m args kw w :
  mode self = CACHE_ONLY →
  files (__acall__ self m args kw w).2 = files w
  ∧ calls (__acall__ self m args kw w).2 = calls w
  ∧ backend (__acall__ self m args kw w).2 = backend w.
Proof.
  intros Hmode. rewrite acall_run; cbv zeta. rewrite Hmode.
  destruct (negb _); [done|]. destruct (lookup_result _ _ _) as [v|]; [|done].
  by destruct (negb _).
Qed.

(** X6.  In CACHE_ONLY mode no sequence of calls, whatever their names,
    arguments and outcomes, reaches the backend or changes a file. *)
Theorem cache_only_never_calls_backend self cs w :
  mode self = CACHE_ONLY →
  files (run_calls self cs w).2 = files w
  ∧ calls (run_calls self cs w).2 = calls w
  ∧ backend (run_calls self cs w).2 = backend w.
Proof.
  intros Hmode. revert w. induction cs as [|c cs IH]; intros w; [done|].
  cbn [run_calls].
  pose proof (acall_cache_only_frame self (call_method c) (call_args c) (call_kwargs c) w Hmode)
    as (Hf & Hc & Hb).
  destruct (__acall__ _ _ _ _ _) as [o w']. cbn [snd] in *.
  specialize (IH w'). destruct (run_calls self cs w') as [os w'']. cbn [snd] in *.
  destruct IH as (-> & -> & ->). done.
Qed.

(** X7.  A call never removes a record file, never removes a directory,
    adds at most one file, and reaches the backend at most once, with
    the caller's own arguments. *)
Theorem acall_monotone self m args kw w :
  let w' := (__acall__ self m args kw w).2 in
  (∀ p, is_Some (files w !! p) → is_Some (files w' !! p))
  ∧ dirs w ⊆ dirs w'
  ∧ (size (files w') ≤ S (size (files w)))%nat
  ∧ (calls w' = calls w ∨ calls w' = calls w ++ [Call m args kw]).
Proof.
  cbv zeta. rewrite acall_run; cbv zeta.
  set (key := _generate_cache_key self m args kw).
  assert (Hd : dirs w ⊆ dirs (touched self key w)).
  { unfold touched; cbn [dirs]. apply union_subseteq_l. }
  assert (Hsame : ∀ (o : outcome pyval) w1,
            files w1 = files w → dirs w ⊆ dirs w1 →
            calls w1 = calls w ∨ calls w1 = calls w ++ [Call m args kw] →
            (∀ p, is_Some (files w !! p) → is_Some (files (o, w1).2 !! p))
            ∧ dirs w ⊆ dirs (o, w1).2
            ∧ (size (files (o, w1).2) ≤ S (size (files w)))%nat
            ∧ (calls (o, w1).2 = calls w ∨ calls (o, w1).2 = calls w ++ [Call m args kw])).
  { intros o w1 Hf Hdir Hc. cbn [snd]. rewrite Hf. repeat split; [done|done|lia|done]. }
  destruct (negb _); [by apply Hsame; [..|left]|].
  destruct (lookup_result _ _ _) as [v|]; [|by apply Hsame; [..|left]].
  destruct (negb _); [by apply Hsame; [..|left]|].
  destruct (mode self); [by apply Hsame; [..|left]|].
  destruct (real_provider self) as [p|]; [|by apply Hsame; [..|left]].
  destruct (getattr p m) as [f|]; [|by apply Hsame; [..|left]].
  destruct (f args kw (backend w)) as [[r|e] b']; [|by apply Hsame; [..|right]].
  destruct (serialize_response r) as [s|e]; [|by apply Hsame; [..|right]].
  cbn [snd served files dirs calls]. repeat split; [|done| |by right].
  - intros p0 Hp0. destruct (decide (cache_path_of self key = p0)) as [<-|Hne].
    + rewrite lookup_insert_eq. by eexists.
    + by rewrite lookup_insert_ne.
  - rewrite map_size_insert.
    destruct (files w !! cache_path_of self key); unfold id; lia.
Qed.

End Failures.

Section Store.

Context {B : Type} {inference : apis_inference}.
Implicit Types (self : @ReplayProvider B) (w : world B) (r s : pyval).

Lemma acall_files_cases self m args kw w :
  let key := _generate_cache_key self m args kw in
  files (__acall__ self m args kw w).2 = files w
  ∨ ∃ r s, files (__acall__ self m args kw w).2
           = <[cache_path_of self key := Json.dump (cache_data_of self key r s)]> (files w).
Proof.
  cbv zeta. rewrite acall_run; cbv zeta.
  destruct (negb _); [by left|].
  destruct (lookup_result _ _ _) as [v|]; [|by left].
  destruct (negb _); [by left|].
  destruct (mode self); [by left|].
  destruct (real_provider self) as [p|]; [|by left].
  destruct (getattr p m) as [f|]; [|by left].
  destruct (f args kw (backend w)) as [[r|e] b']; [|by left].
  destruct (serialize_response r) as [s|e]; [|by left].
  right. by exists r, s.
Qed.

Lemma cache_path_last self key :
  last (cache_path_of self key) = Some (key +:+ ".json").
Proof.
  unfold cache_path_of. rewrite path_join_last by (by apply string_app_nonempty).
  apply last_snoc.
Qed.

(** X8.  Calls keep the addressing of the cache: if every record file
    is named by the [cache_key] it holds, the same is true after any
    sequence of calls, by whatever provider shares the cache. *)
Theorem calls_keep_records_addressed self cs w :
  addressed_by_key w → addressed_by_key (run_calls self cs w).2.
Proof.
  revert w. induction cs as [|c cs IH]; intros w Hw; [done|].
  cbn [run_calls].
  pose proof (acall_files_cases self (call_method c) (call_args c) (call_kwargs c) w) as Hc.
  destruct (__acall__ _ _ _ _ _) as [o w']. cbn [snd] in Hc.
  specialize (IH w'). destruct (run_calls self cs w') as [os w'']. cbn [snd] in *.
  apply IH. intros p j Hp. destruct Hc as [Hc|(r & s & Hc)]; rewrite Hc in Hp; [by apply Hw|].
  apply lookup_insert_Some in Hp as [[<- <-]|[_ Hp]]; [|by apply Hw].
  eexists. split; [reflexivity|]. apply cache_path_last.
Qed.

(** X9.  A response that has neither [model_dump] nor [dict] (None, a
    number, a list, a dictionary, a plain object) is stored as its [str],
    and reading the record back gives that string, whatever the name of
    its type. *)
Theorem str_fallback_replay self key r w :
  has_dict r = false →
  (_save_to_cache self key r w).1 = Return ()
  ∧ (_load_from_cache self key (_save_to_cache self key r w).2).1
    = Return (PStr (Repr.str r)).
Proof.
  intros Hr.
  assert (Hs : serialize_response r = Return (PStr (Repr.str r))).
  { unfold serialize_response. rewrite Hr. by destruct r as [| | | | | | |[]|]. }
  rewrite (save_run _ _ _ _ _ Hs). split; [done|].
  rewrite load_run. cbn [fst snd]. unfold lookup_result. cbn [files].
  rewrite lookup_insert_eq, decode_cache_data. cbv zeta. cbn [Json.dump Json.load].
  destruct (_ && _); [|done].
  rewrite reconstruct_registry. by destruct (registry (type_name r)).
Qed.

(** X10.  A record whose payload is empty or zero but not null (an
    empty object, array or string, 0, false) is a hit in either mode:
    the call returns the payload as it is and builds no class, even when
    [response_type] names a class the decoder knows. *)
Theorem falsy_payload_is_returned_raw self m args kw w j kvs md d :
  let key := _generate_cache_key self m args kw in
  m ∈ routes self →
  files w !! cache_path_of self key = Some j →
  Json.load j = PDict kvs →
  assoc "response" kvs = Some d →
  default (PDict []) (assoc "metadata" kvs) = PDict md →
  truthy d = false →
  is_None d = false →
  (__acall__ self m args kw w).1 = Return d
  ∧ files (__acall__ self m args kw w).2 = files w
  ∧ calls (__acall__ self m args kw w).2 = calls w.
Proof.
  intros key Hm Hfile Hload Hd Hmd Ht Hn. rewrite acall_run; cbv zeta. fold key.
  rewrite (routes_known _ _ Hm). unfold lookup_result. rewrite Hfile, Hload.
  unfold decode_record. cbn [py_get]. rewrite Hd, Hmd. cbn [default py_get].
  unfold id. by rewrite Ht, andb_false_r, Hn.
Qed.

(** X11.  A record file whose document is not an object, or whose
    [metadata] is not an object, is not skipped: every call for its key
    raises the attribute error of [get], in either mode, without
    reaching the backend or changing a file. *)
Theorem corrupt_record_raises self m args kw w j x :
  let key := _generate_cache_key self m args kw in
  m ∈ routes self →
  files w !! cache_path_of self key = Some j →
  (∀ kvs, x ≠ PDict kvs) →
  (Json.load j = x
   ∨ ∃ kvs, Json.load j = PDict kvs ∧ assoc "metadata" kvs = Some x) →
  (__acall__ self m args kw w).1 =
    Raise (AttributeError ("'" +:+ type_name x +:+ "' object has no attribute 'get'"))
  ∧ files (__acall__ self m args kw w).2 = files w
  ∧ calls (__acall__ self m args kw w).2 = calls w
  ∧ backend (__acall__ self m args kw w).2 = backend w.
Proof.
  intros key Hm Hfile Hx Hbad. rewrite acall_run; cbv zeta. fold key.
  rewrite (routes_known _ _ Hm). unfold lookup_result. rewrite Hfile.
  assert (Hdec : decode_record (Json.load j) =
            Raise (AttributeError ("'" +:+ type_name x +:+ "' object has no attribute 'get'"))).
  { destruct Hbad as [->|(kvs & -> & Hmd)].
    - unfold decode_record. destruct x; try done. by destruct (Hx kvs).
    - unfold decode_record. cbn [py_get]. rewrite Hmd. cbn [default].
      destruct x; try done. by destruct (Hx kvs0). }
  by rewrite Hdec.
Qed.

(** X12.  Writing a record under one key leaves the record of every
    other key as it was. *)
Theorem save_keeps_other_keys self key1 key2 r w :
  key1 ≠ key2 →
  lookup_result self key2 (_save_to_cache self key1 r w).2 = lookup_result self key2 w.
Proof.
  intros Hne. unfold lookup_result.
  destruct (serialize_response r) as [s|e] eqn:Hs.
  - rewrite (save_run _ _ _ _ _ Hs). cbn [snd files].
    rewrite lookup_insert_ne; [done|]. intros H. by apply Hne, (cache_path_inj self).
  - by rewrite (save_raise _ _ _ _ _ Hs).
Qed.

(** X13.  The last writer wins: writing a second response under a key
    leaves the cache exactly as if only the second had been written, and
    the number of files as after the first. *)
Theorem save_overwrites self key r1 r2 s1 s2 w :
  serialize_response r1 = Return s1 →
  serialize_response r2 = Return s2 →
  _save_to_cache self key r2 (_save_to_cache self key r1 w).2
  = _save_to_cache self key r2 w
  ∧ size (files (_save_to_cache self key r2 (_save_to_cache self key r1 w).2).2)
    = size (files (_save_to_cache self key r1 w).2).
Proof.
  intros H1 H2. rewrite !(save_run _ _ _ _ _ H2), !(save_run _ _ _ _ _ H1).
  cbn [snd files dirs backend calls touched]. split.
  - f_equal. f_equal; [by rewrite <- (assoc_L (∪)), (idemp_L (∪))|].
    apply insert_insert_eq.
  - by rewrite insert_insert_eq, !map_size_insert.
Qed.

End Store.

Section Namespace.

Context {B : Type} {inference : apis_inference}.
Implicit Types (self : @ReplayProvider B) (w : world B) (r s : pyval).

Lemma namespace_paths_differ self1 self2 key1 key2 :
  cache_dir self1 = cache_dir self2 →
  api_name self1 = api_name self2 →
  provider_type self1 ≠ provider_type self2 →
  provider_type self1 ≠ "" →
  provider_type self2 ≠ "" →
  cache_path_of self1 key1 ≠ cache_path_of self2 key2.
Proof.
  intros Hcd Hapi Hne H1 H2. unfold cache_path_of. rewrite Hcd, Hapi.
  rewrite (path_join_last _ (key1 +:+ ".json")), (path_join_last _ (key2 +:+ ".json"))
    by (by apply string_app_nonempty).
  rewrite (path_join_last _ _ H1), (path_join_last _ _ H2).
  intros H. apply app_inj_tail in H as [H _]. by apply app_inj_tail in H as [_ H].
Qed.

(** X14.  Two providers over the same interface and cache root whose
    backends are of different classes never address the same file,
    whatever the keys; a record written through one is never seen
    through the other. *)
Theorem namespaces_are_disjoint self1 self2 key1 key2 r w :
  cache_dir self1 = cache_dir self2 →
  api_name self1 = api_name self2 →
  provider_type self1 ≠ provider_type self2 →
  provider_type self1 ≠ "" →
  provider_type self2 ≠ "" →
  cache_path_of self1 key1 ≠ cache_path_of self2 key2
  ∧ lookup_result self2 key2 (_save_to_cache self1 key1 r w).2
    = lookup_result self2 key2 w.
Proof.
  intros Hcd Hapi Hne H1 H2.
  pose proof (namespace_paths_differ self1 self2 key1 key2 Hcd Hapi Hne H1 H2) as Hp.
  split; [done|]. unfold lookup_result.
  destruct (serialize_response r) as [s|e] eqn:Hs.
  - rewrite (save_run _ _ _ _ _ Hs). cbn [snd files]. by rewrite lookup_insert_ne.
  - by rewrite (save_raise _ _ _ _ _ Hs).
Qed.

Lemma calls_stay_under_namespace self cs w :
  under_namespace self w → under_namespace self (run_calls self cs w).2.
Proof.
  revert w. induction cs as [|c cs IH]; intros w Hw; [done|].
  cbn [run_calls].
  pose proof (acall_files_cases self (call_method c) (call_args c) (call_kwargs c) w) as Hc.
  destruct (__acall__ _ _ _ _ _) as [o w']. cbn [snd] in Hc.
  specialize (IH w'). destruct (run_calls self cs w') as [os w'']. cbn [snd] in *.
  apply IH. intros p Hp. destruct Hc as [Hc|(r & s & Hc)]; rewrite Hc in Hp; [by apply Hw|].
  destruct (decide (cache_path_of self
              (_generate_cache_key self (call_method c) (call_args c) (call_kwargs c)) = p))
    as [<-|Hne]; [by eexists|].
  rewrite lookup_insert_ne in Hp by done. by apply Hw.
Qed.

(** X15.  What was recorded through a backend whose class has a name
    other than NoProvider (and not the empty name) cannot be replayed
    without it: on a cache filled, from empty, by any calls of a provider
    that wraps such a backend, every call of a CACHE_ONLY provider over
    the same interface and cache root that wraps no backend is a miss.
    The condition on the name is needed: a provider without a backend
    files its records under NoProvider, and so does one whose backend's
    class bears that name. *)
Theorem recorded_cache_needs_its_backend rec rep p cs w m args kw :
  real_provider rec = Some p →
  provider_class p ≠ "" →
  provider_class p ≠ "NoProvider" →
  real_provider rep = None →
  mode rep = CACHE_ONLY →
  cache_dir rec = cache_dir rep →
  proto rec = proto rep →
  files w = ∅ →
  m ∈ routes rep →
  (__acall__ rep m args kw (run_calls rec cs w).2).1 =
    Raise (RuntimeError ("Cache miss for " +:+ _generate_cache_key rep m args kw
                           +:+ " and mode is CACHE_ONLY")).
Proof.
  intros Hp Hc1 Hc2 Hnone Hmode Hcd Hproto Hempty Hm.
  assert (Hns : under_namespace rec (run_calls rec cs w).2).
  { apply calls_stay_under_namespace. intros q [j Hq]. by rewrite Hempty in Hq. }
  assert (Hfile : files (run_calls rec cs w).2
                    !! cache_path_of rep (_generate_cache_key rep m args kw) = None).
  { destruct (files _ !! _) as [j|] eqn:Hj; [|done]. exfalso.
    destruct (Hns _ (mk_is_Some _ _ Hj)) as [key Hkey]. symmetry in Hkey. revert Hkey.
    apply namespace_paths_differ; unfold provider_type, api_name;
      rewrite ?Hp, ?Hnone, ?Hproto; done. }
  rewrite acall_run; cbv zeta.
  by rewrite (routes_known _ _ Hm), (lookup_absent _ _ _ Hfile), Hmode.
Qed.

End Namespace.

(** ** A save followed by a load *)

Section RoundTrip.

Context {B : Type} {inference : apis_inference}.
Implicit Types (self : @ReplayProvider B) (w : world B).

(** X21.  What the codec makes of a v2 model whose class name the
    decoder knows: [_save_to_cache] succeeds, and [_load_from_cache]
    then returns the instance the class builds from the json-mode dump;
    when the class raises it returns the dump, and for a model without
    fields the empty mapping.  So the value read equals the value
    written exactly when the model has a field and its class builds it
    back from its dump. *)
Theorem save_then_load self key c C fs d w :
  registry c = Some C →
  well_formed (PModel V2 c fs) = true →
  Pydantic.to_jsonable (PModel V2 c fs) = Some (PDict d) →
  let w' := (_save_to_cache self key (PModel V2 c fs) w).2 in
  let loaded := (_load_from_cache self key w').1 in
  (_save_to_cache self key (PModel V2 c fs) w).1 = Return ()
  ∧ loaded = Return (match fs, C d with
                     | [], _ => PDict []
                     | _ :: _, Return fs' => PModel V2 c fs'
                     | _ :: _, Raise _ => PDict d
                     end)
  ∧ (loaded = Return (PModel V2 c fs) ↔ fs ≠ [] ∧ C d = Return fs).
Proof.
  intros HC Hwf Hdump w' loaded.
  assert (Hs : serialize_response (PModel V2 c fs) = Return (PDict d)).
  { unfold serialize_response. cbn [has_model_dump]. by rewrite Hdump. }
  assert (Hl : loaded = Return (match fs, C d with
                                | [], _ => PDict []
                                | _ :: _, Return fs' => PModel V2 c fs'
                                | _ :: _, Raise _ => PDict d
                                end)).
  { subst loaded w'. rewrite (save_run _ _ _ _ _ Hs), load_run. cbn [fst snd].
    unfold lookup_result. cbn [files]. rewrite lookup_insert_eq, decode_cache_data.
    cbv zeta. destruct (dumped_model _ _ _ Hs Hwf) as [-> Hk].
    rewrite reconstruct_registry. cbn [type_name]. rewrite HC. simpl.
    assert (c ≠ "") as Hc by (by eapply registry_named).
    apply String.eqb_neq in Hc. rewrite Hc. simpl.
    destruct fs as [|f fs], d as [|x d]; try done.
    by destruct (C (x :: d)). }
  split; [by rewrite (save_run _ _ _ _ _ Hs)|]. split; [exact Hl|].
  rewrite Hl. split.
  - destruct fs as [|f fs]; [done|].
    destruct (C d) as [fs'|e]; [|done]. intros [= ->]. done.
  - intros [Hfs ->]. by destruct fs.
Qed.

End RoundTrip.

(** ** What a key is made of *)

Lemma contains_char_app c (s t : string) :
  Str.contains_char c (s +:+ t) = Str.contains_char c s || Str.contains_char c t.
Proof. induction s as [|d s IH]; simpl; [done|]. by destruct (Ascii.eqb c d). Qed.

Lemma contains_char_take c n (s : string) :
  Str.contains_char c s = false → Str.contains_char c (Str.take n s) = false.
Proof.
  unfold Str.take. revert s. induction n as [|n IH]; intros [|d s]; simpl; try done.
  destruct (Ascii.eqb c d); [done|]. apply IH.
Qed.

Lemma hex_digit_spec (z : Z) :
  (0 ≤ z < 16)%Z → Str.contains_char (Str.hex_digit z) "0123456789abcdef" = true.
Proof.
  intros Hz.
  assert (Hn : z = Z.of_nat (Z.to_nat z)) by lia. rewrite Hn.
  assert (Hlt : (Z.to_nat z < 16)%nat) by lia. revert Hlt. generalize (Z.to_nat z).
  intros n Hlt. do 16 (destruct n as [|n]; [reflexivity|]). lia.
Qed.

Lemma contains_char_hex_digit c (z : Z) :
  (0 ≤ z < 16)%Z →
  Str.contains_char c "0123456789abcdef" = false →
  Ascii.eqb c (Str.hex_digit z) = false.
Proof.
  intros Hz Hc. destruct (Ascii.eqb_spec c (Str.hex_digit z)) as [->|]; [|done].
  by rewrite hex_digit_spec in Hc.
Qed.

Lemma contains_char_hexdigest c (bs : list Z) :
  Str.contains_char c "0123456789abcdef" = false →
  Str.contains_char c (Str.concat (map Str.hex_byte bs)) = false.
Proof.
  intros Hc. induction bs as [|b bs IH]; [done|].
  cbn [map Str.concat]. rewrite contains_char_app, IH, orb_false_r.
  unfold Str.hex_byte. cbn [Str.contains_char].
  rewrite !contains_char_hex_digit; [done|by apply Z.mod_pos_bound|done
                                    |by apply Z.mod_pos_bound|done].
Qed.

(** X16.  A key holds no character beyond those of the three names,
    the underscore and the sixteen hexadecimal digits: whatever the
    arguments hold, a separator or a dot among them, none of it reaches
    the file name. *)
Theorem key_holds_no_argument_text {B} (self : @ReplayProvider B) m args kw c :
  Str.contains_char c (api_name self) = false →
  Str.contains_char c (provider_type self) = false →
  Str.contains_char c m = false →
  Str.contains_char c "_0123456789abcdef" = false →
  Str.contains_char c (_generate_cache_key self m args kw) = false
  ∧ String.length (param_hash args kw) = 8.
Proof.
  intros Ha Hp Hm Hc. split; [|apply param_hash_length].
  assert (Hu : Str.contains_char c "_" = false).
  { cbn [Str.contains_char] in *. by destruct (Ascii.eqb c "_"). }
  assert (Hh : Str.contains_char c "0123456789abcdef" = false).
  { change "_0123456789abcdef" with ("_" +:+ "0123456789abcdef") in Hc.
    rewrite contains_char_app in Hc. by apply orb_false_elim in Hc as [_ ?]. }
  unfold _generate_cache_key, param_hash.
  rewrite !contains_char_app, Ha, Hp, Hm, Hu. cbn [orb].
  apply contains_char_take. by apply contains_char_hexdigest.
Qed.

(** ** The class around [__acall__] *)

Section ClassFacts.

Context {B : Type} {inference : apis_inference}.
Implicit Types (self : @ReplayProvider B) (w : world B).



Lemma assoc_notin {A} k (kvs : list (string * A)) :
  k ∉ kvs.*1 → assoc k kvs = None.
Proof.
  induction kvs as [|[k' v] kvs IH]; [done|]. cbn [assoc fmap list_fmap fst].
  intros Hk. apply not_elem_of_cons in Hk as [Hne Hk].
  destruct (String.eqb_spec k k'); [done|]. by apply IH.
Qed.

Lemma assoc_app_notin {A} k (l1 l2 : list (string * A)) :
  k ∉ l1.*1 → assoc k (l1 ++ l2) = assoc k l2.
Proof.
  induction l1 as [|[k' v] l1 IH]; [done|]. cbn [assoc app fmap list_fmap fst].
  intros Hk. apply not_elem_of_cons in Hk as [Hne Hk].
  destruct (String.eqb_spec k k'); [done|]. by apply IH.
Qed.

Lemma filter_key_notin {A} (k : string) (kvs : list (string * A)) :
  k ∉ kvs.*1 → filter (λ kv, kv.1 ≠ k) kvs = kvs.
Proof.
  induction kvs as [|[k' v] kvs IH]; [done|]. cbn [fmap list_fmap fst].
  intros Hk. apply not_elem_of_cons in Hk as [Hne Hk].
  rewrite filter_cons_True by (simpl; congruence). by rewrite IH.
Qed.

(** X18.  The keyword [method_name] is the operation: an entry point
    called without it runs its own operation, and called with it, at any
    place among the keyword arguments, runs the operation named there,
    with that keyword taken out, exactly as the entry point of that
    operation would. *)
Theorem method_name_keyword_redirects name other self args kw1 kw2 w :
  "method_name" ∉ kw1.*1 →
  "method_name" ∉ kw2.*1 →
  method_impl name self args (kw1 ++ kw2) w = __acall__ self name args (kw1 ++ kw2) w
  ∧ method_impl name self args (kw1 ++ ("method_name", PStr other) :: kw2) w
    = method_impl other self args (kw1 ++ kw2) w.
Proof.
  intros H1 H2.
  assert (Hnone : assoc "method_name" (kw1 ++ kw2) = None).
  { apply assoc_notin. rewrite fmap_app. by intros [?|?]%elem_of_app. }
  unfold method_impl. rewrite Hnone. split; [done|].
  rewrite (assoc_app_notin _ _ _ H1). cbn [assoc String.eqb Ascii.eqb Bool.eqb].
  unfold acall_named, kwargs in *.
  rewrite filter_app, filter_cons_False by (simpl; tauto).
  by rewrite !filter_key_notin.
Qed.

(** X19.  The routes [__init__] builds are the members of the protocol
    that carry [__webmethod__], no more and no less; making the provider
    changes no file, and making it again changes nothing at all. *)
Theorem init_builds_routes (pr : protocol) (rp : option (@provider B)) md cd w m :
  let self := (__init__ pr rp md cd w).1 in
  let w' := (__init__ pr rp md cd w).2 in
  (∃ s, self = Return s ∧ (m ∈ routes s ↔ (m, true) ∈ members pr)
        ∧ proto s = pr ∧ real_provider s = rp ∧ mode s = md ∧ cache_dir s = cd)
  ∧ files w' = files w
  ∧ __init__ pr rp md cd w' = (self, w').
Proof.
  cbv zeta. unfold __init__, mbind, M_bind, mkdir, mret, M_ret. cbn [fst snd files dirs].
  split; [|split; [done|]].
  - eexists. split; [reflexivity|]. cbn [routes]. split; [|done].
    rewrite list_elem_of_fmap. split.
    + intros ([m' b] & -> & Hin). apply list_elem_of_filter in Hin as [Hb Hin].
      simpl in Hb. by subst b.
    + intros Hin. exists (m, true). split; [done|]. by apply list_elem_of_filter.
  - do 2 f_equal. by rewrite <- (assoc_L (∪)), (idemp_L (∪)).
Qed.

End ClassFacts.

(** ** The factory *)

Section FactoryFacts.

Context {B : Type} {inference : apis_inference} {Api Deps : Type}.
Variable api_protocol_map : Api → option protocol.
Variable api_str : Api → string.
Variable expanduser : string → path.

Local Abbreviation build :=
  (get_replay_provider_impl (B := B) (Deps := Deps) api_protocol_map api_str expanduser).

(** X20.  The factory builds a CACHE_ONLY provider for the mode text
    cache_only and a fallback provider for every other text.  It fails,
    leaving the file system as it was, when the backend is not among the
    implementations in a mode other than cache_only, and otherwise when
    the interface is unknown.  A fallback provider it builds always
    wraps a backend; the only provider without one is CACHE_ONLY. *)
Theorem factory_outcome api config inner_impls deps w :
  let id := ReplayProviderConfig.real_provider_id config in
  let cache_only := String.eqb (ReplayProviderConfig.mode config) "cache_only" in
  match build api config inner_impls deps w with
  | (Return self, w') =>
      api_protocol_map api = Some (proto self)
      ∧ real_provider self = inner_impls !! id
      ∧ mode self = (if cache_only then CACHE_ONLY else CACHE_WITH_FALLBACK)
      ∧ (mode self = CACHE_WITH_FALLBACK → is_Some (real_provider self))
      ∧ (real_provider self = None → mode self = CACHE_ONLY)
      ∧ cache_dir self = expanduser (ReplayProviderConfig.cache_dir config)
      ∧ files w' = files w
      ∧ dirs w' = dirs w ∪ list_to_set (ancestors (cache_dir self))
  | (Raise e, w') =>
      w' = w
      ∧ ((inner_impls !! id = None ∧ cache_only = false
          ∧ e = ValueError ("Real provider '" +:+ id
                              +:+ "' not found in inner implementations"))
         ∨ ((is_Some (inner_impls !! id) ∨ cache_only = true)
            ∧ api_protocol_map api = None
            ∧ e = ValueError ("Unknown API: " +:+ api_str api)))
  end.
Proof.
  cbv zeta. unfold get_replay_provider_impl, mbind, M_bind.
  destruct (inner_impls !! ReplayProviderConfig.real_provider_id config) as [p|] eqn:Hp.
  - cbn [mret M_ret]. destruct (api_protocol_map api) as [pr|] eqn:Hpr.
    + cbn. repeat split; try done. all: destruct (String.eqb _ _); by eauto.
    + cbn. split; [done|]. right. repeat split; by eauto.
  - destruct (String.eqb (ReplayProviderConfig.mode config) "cache_only") eqn:Hm.
    + cbn [mret M_ret]. destruct (api_protocol_map api) as [pr|] eqn:Hpr.
      * cbn. repeat split; done.
      * cbn. split; [done|]. right. repeat split; by eauto.
    + cbn. split; [done|]. left. done.
Qed.

End FactoryFacts.

(** * The further properties at work *)

Import Fixture.

(** X1 on an operation the test interface does not declare, with a
    record on disk. *)
Lemma unknown_method_witness :
  ("embeddings" ∉ routes (replay MockInferenceProvider (Some MockRealProvider)
                            CACHE_WITH_FALLBACK))
  ∧ acall (replay MockInferenceProvider (Some MockRealProvider) CACHE_WITH_FALLBACK)
      "embeddings" [] hello (holding stored_record)
    = (Raise (AttributeError "Unknown method: embeddings"), holding stored_record).
Proof.
  assert (H : "embeddings" ∉ routes (replay MockInferenceProvider (Some MockRealProvider)
                                       CACHE_WITH_FALLBACK))
    by (intros H; absent H).
  exact (conj H (unknown_method_rejected (inference := no_inference) _ "embeddings" []
                   hello (holding stored_record) H)).
Defined.

(** X2 on a fallback provider made without a backend. *)
Lemma no_provider_witness :
  lookup_result (inference := no_inference)
    (replay MockInferenceProvider None CACHE_WITH_FALLBACK)
    (_generate_cache_key (replay MockInferenceProvider None CACHE_WITH_FALLBACK)
       "completion" [] hello) ready = Return PNone
  ∧ (acall (replay MockInferenceProvider None CACHE_WITH_FALLBACK)
       "completion" [] hello ready).1
    = Raise (RuntimeError ("Cache miss for "
               +:+ _generate_cache_key (replay MockInferenceProvider None CACHE_WITH_FALLBACK)
                     "completion" [] hello
               +:+ " and no real provider available")).
Proof.
  assert (H : lookup_result (inference := no_inference)
                (replay MockInferenceProvider None CACHE_WITH_FALLBACK)
                (_generate_cache_key (replay MockInferenceProvider None CACHE_WITH_FALLBACK)
                   "completion" [] hello) ready = Return PNone)
    by (vm_compute; reflexivity).
  split; [exact H|].
  exact (proj1 (no_provider_miss_fails (inference := no_inference)
                  (replay MockInferenceProvider None CACHE_WITH_FALLBACK)
                  "completion" [] hello ready eq_refl eq_refl ltac:(known_route) H)).
Defined.

(** X3 on a backend of another interface, which has no [completion]. *)
Lemma missing_backend_method_witness :
  methods MockAgents "completion" = None
  ∧ (acall (replay MockInferenceProvider (Some MockAgents) CACHE_WITH_FALLBACK)
       "completion" [] hello ready).1
    = Raise (AttributeError ("'" +:+ provider_class MockAgents
                               +:+ "' object has no attribute '" +:+ "completion" +:+ "'"))
  ∧ calls (acall (replay MockInferenceProvider (Some MockAgents) CACHE_WITH_FALLBACK)
             "completion" [] hello ready).2 = calls ready.
Proof.
  split; [reflexivity|].
  pose proof (missing_backend_method (inference := no_inference)
                (replay MockInferenceProvider (Some MockAgents) CACHE_WITH_FALLBACK)
                "completion" [] hello ready MockAgents eq_refl eq_refl
                ltac:(known_route) eq_refl ltac:(vm_compute; reflexivity))
    as (H1 & _ & H2 & _).
  exact (conj H1 H2).
Defined.

(** X4 on a backend whose result holds a queue. *)
Lemma unserializable_result_witness :
  serialize_response (PModel V2 "StreamHandle"
                        [("stream", PObject "asyncio" "Queue" 0x7f5b41d4e310)])
  = Raise (PydanticSerializationError "Unable to serialize unknown type")
  ∧ (acall (replay MockInferenceProvider (Some OpaqueProvider) CACHE_WITH_FALLBACK)
       "completion" [] hello ready).1
    = Raise (PydanticSerializationError "Unable to serialize unknown type")
  ∧ calls (acall (replay MockInferenceProvider (Some OpaqueProvider) CACHE_WITH_FALLBACK)
             "completion" [] hello ready).2
    = calls ready ++ [Call "completion" [] hello]
  ∧ files (acall (replay MockInferenceProvider (Some OpaqueProvider) CACHE_WITH_FALLBACK)
             "completion" [] hello ready).2 = files ready.
Proof.
  split; [reflexivity|].
  pose proof (unserializable_result_not_cached (inference := no_inference)
                (replay MockInferenceProvider (Some OpaqueProvider) CACHE_WITH_FALLBACK)
                "completion" [] hello ready OpaqueProvider opaque_completion
                (PModel V2 "StreamHandle"
                   [("stream", PObject "asyncio" "Queue" 0x7f5b41d4e310)])
                1%Z (PydanticSerializationError "Unable to serialize unknown type")
                eq_refl eq_refl ltac:(known_route) eq_refl
                ltac:(vm_compute; reflexivity) eq_refl eq_refl)
    as (H1 & H2 & _ & H3 & _).
  exact (conj H1 (conj H2 H3)).
Defined.

(** X5 on the record of an earlier run, replayed three times. *)
Lemma hit_is_stable_witness :
  lookup_result (inference := no_inference)
    (replay MockInferenceProvider (Some MockRealProvider) CACHE_ONLY)
    (_generate_cache_key (replay MockInferenceProvider (Some MockRealProvider) CACHE_ONLY)
       "completion" [] hello)
    (holding stored_record)
  = Return (PDict [("content", PStr "Response to: Hello world")])
  ∧ (run_n 3 (__acall__ (inference := no_inference)
                (replay MockInferenceProvider (Some MockRealProvider) CACHE_ONLY)
                "completion" [] hello) (holding stored_record)).1
    = replicate 3 (Return (PDict [("content", PStr "Response to: Hello world")]))
  ∧ calls (run_n 3 (__acall__ (inference := no_inference)
                      (replay MockInferenceProvider (Some MockRealProvider) CACHE_ONLY)
                      "completion" [] hello) (holding stored_record)).2
    = calls (holding stored_record).
Proof.
  assert (H : lookup_result (inference := no_inference)
                (replay MockInferenceProvider (Some MockRealProvider) CACHE_ONLY)
                (_generate_cache_key
                   (replay MockInferenceProvider (Some MockRealProvider) CACHE_ONLY)
                   "completion" [] hello)
                (holding stored_record)
              = Return (PDict [("content", PStr "Response to: Hello world")]))
    by (vm_compute; reflexivity).
  split; [exact H|].
  pose proof (hit_is_stable (inference := no_inference)
                (replay MockInferenceProvider (Some MockRealProvider) CACHE_ONLY)
                "completion" [] hello (holding stored_record)
                (PDict [("content", PStr "Response to: Hello world")]) 3
                ltac:(known_route) H eq_refl) as (H1 & _ & H2 & _).
  exact (conj H1 H2).
Defined.

(** X6 on three calls of a CACHE_ONLY provider: a hit, an unknown
    operation and a miss. *)
Lemma cache_only_sequence_witness :
  mode (replay MockInferenceProvider (Some MockRealProvider) CACHE_ONLY) = CACHE_ONLY
  ∧ calls (run_calls (inference := no_inference)
             (replay MockInferenceProvider (Some MockRealProvider) CACHE_ONLY)
             [Call "completion" [] hello; Call "embeddings" [] []; Call "completion" [] []]
             (holding stored_record)).2
    = calls (holding stored_record)
  ∧ backend (run_calls (inference := no_inference)
               (replay MockInferenceProvider (Some MockRealProvider) CACHE_ONLY)
               [Call "completion" [] hello; Call "embeddings" [] []; Call "completion" [] []]
               (holding stored_record)).2
    = backend (holding stored_record).
Proof.
  split; [reflexivity|].
  pose proof (cache_only_never_calls_backend (inference := no_inference)
                (replay MockInferenceProvider (Some MockRealProvider) CACHE_ONLY)
                [Call "completion" [] hello; Call "embeddings" [] []; Call "completion" [] []]
                (holding stored_record) eq_refl) as (_ & H1 & H2).
  exact (conj H1 H2).
Defined.

Lemma addressed_ready : addressed_by_key ready.
Proof. intros p j H. unfold ready in H. cbn [files] in H. by rewrite lookup_empty in H. Qed.

(** X8 on the calls of the test suite, from an empty cache. *)
Lemma records_addressed_witness :
  addressed_by_key ready
  ∧ addressed_by_key
      (run_calls (inference := no_inference)
         (replay MockInferenceProvider (Some MockRealProvider) CACHE_WITH_FALLBACK)
         [Call "completion" [] hello; Call "completion" [] message_a] ready).2.
Proof.
  exact (conj addressed_ready
           (calls_keep_records_addressed (inference := no_inference)
              (replay MockInferenceProvider (Some MockRealProvider) CACHE_WITH_FALLBACK)
              [Call "completion" [] hello; Call "completion" [] message_a] ready
              addressed_ready)).
Defined.

(** X9 on a backend result that is None: the record gives the text
    None. *)
Lemma str_fallback_witness :
  has_dict PNone = false
  ∧ (_load_from_cache (inference := no_inference)
       (replay MockInferenceProvider (Some MockRealProvider) CACHE_WITH_FALLBACK) "k"
       (_save_to_cache
          (replay MockInferenceProvider (Some MockRealProvider) CACHE_WITH_FALLBACK)
          "k" PNone ready).2).1
    = Return (PStr (Repr.str PNone)).
Proof.
  split; [reflexivity|].
  exact (proj2 (str_fallback_replay (inference := no_inference)
                  (replay MockInferenceProvider (Some MockRealProvider) CACHE_WITH_FALLBACK)
                  "k" PNone ready eq_refl)).
Defined.

(** X10 on an empty record of CompletionResponse, with a class that
    would accept it. *)
Lemma falsy_payload_witness :
  files (holding empty_record)
    !! cache_path_of (replay MockInferenceProvider (Some MockRealProvider) CACHE_ONLY)
         (_generate_cache_key
            (replay MockInferenceProvider (Some MockRealProvider) CACHE_ONLY)
            "completion" [] hello) = Some empty_record
  ∧ @CompletionResponse lenient_inference [] = Return []
  ∧ (__acall__ (inference := lenient_inference)
       (replay MockInferenceProvider (Some MockRealProvider) CACHE_ONLY)
       "completion" [] hello (holding empty_record)).1 = Return (PDict []).
Proof.
  assert (H : files (holding empty_record)
                !! cache_path_of (replay MockInferenceProvider (Some MockRealProvider) CACHE_ONLY)
                     (_generate_cache_key
                        (replay MockInferenceProvider (Some MockRealProvider) CACHE_ONLY)
                        "completion" [] hello) = Some empty_record)
    by (vm_compute; reflexivity).
  split; [exact H|]. split; [reflexivity|].
  refine (proj1 (falsy_payload_is_returned_raw (inference := lenient_inference)
                   (replay MockInferenceProvider (Some MockRealProvider) CACHE_ONLY)
                   "completion" [] hello (holding empty_record) empty_record
                   _ _ (PDict []) ltac:(known_route) H eq_refl eq_refl eq_refl
                   eq_refl eq_refl)).
Defined.

(** X11 on a record file that holds an array. *)
Lemma corrupt_record_witness :
  files (holding (JArr []))
    !! cache_path_of (replay MockInferenceProvider (Some MockRealProvider) CACHE_WITH_FALLBACK)
         (_generate_cache_key
            (replay MockInferenceProvider (Some MockRealProvider) CACHE_WITH_FALLBACK)
            "completion" [] hello) = Some (JArr [])
  ∧ (acall (replay MockInferenceProvider (Some MockRealProvider) CACHE_WITH_FALLBACK)
       "completion" [] hello (holding (JArr []))).1
    = Raise (AttributeError ("'" +:+ type_name (PList []) +:+ "' object has no attribute 'get'"))
  ∧ calls (acall (replay MockInferenceProvider (Some MockRealProvider) CACHE_WITH_FALLBACK)
             "completion" [] hello (holding (JArr []))).2
    = calls (holding (JArr [])).
Proof.
  assert (H : files (holding (JArr []))
                !! cache_path_of
                     (replay MockInferenceProvider (Some MockRealProvider) CACHE_WITH_FALLBACK)
                     (_generate_cache_key
                        (replay MockInferenceProvider (Some MockRealProvider)
                           CACHE_WITH_FALLBACK)
                        "completion" [] hello) = Some (JArr []))
    by (vm_compute; reflexivity).
  split; [exact H|].
  pose proof (corrupt_record_raises (inference := no_inference)
                (replay MockInferenceProvider (Some MockRealProvider) CACHE_WITH_FALLBACK)
                "completion" [] hello (holding (JArr [])) (JArr []) (PList [])
                ltac:(known_route) H ltac:(discriminate) (or_introl eq_refl))
    as (H1 & _ & H2 & _).
  exact (conj H1 H2).
Defined.

(** X12 on two keys. *)
Lemma save_keeps_other_keys_witness :
  "a" ≠ "b"
  ∧ lookup_result (inference := no_inference)
      (replay MockInferenceProvider (Some MockRealProvider) CACHE_WITH_FALLBACK) "b"
      (_save_to_cache
         (replay MockInferenceProvider (Some MockRealProvider) CACHE_WITH_FALLBACK)
         "a" (PStr "pong") ready).2
    = lookup_result (inference := no_inference)
        (replay MockInferenceProvider (Some MockRealProvider) CACHE_WITH_FALLBACK) "b" ready.
Proof.
  assert (H : "a" ≠ "b") by discriminate.
  exact (conj H (save_keeps_other_keys (inference := no_inference)
                   (replay MockInferenceProvider (Some MockRealProvider) CACHE_WITH_FALLBACK)
                   "a" "b" (PStr "pong") ready H)).
Defined.

(** X13 on two responses written under one key. *)
Lemma save_overwrites_witness :
  serialize_response (PStr "first") = Return (PStr "first")
  ∧ serialize_response (PInt 2) = Return (PStr "2")
  ∧ _save_to_cache (replay MockInferenceProvider (Some MockRealProvider) CACHE_WITH_FALLBACK)
      "k" (PInt 2)
      (_save_to_cache
         (replay MockInferenceProvider (Some MockRealProvider) CACHE_WITH_FALLBACK)
         "k" (PStr "first") ready).2
    = _save_to_cache
        (replay MockInferenceProvider (Some MockRealProvider) CACHE_WITH_FALLBACK)
        "k" (PInt 2) ready.
Proof.
  split; [reflexivity|]. split; [reflexivity|].
  exact (proj1 (save_overwrites
                  (replay MockInferenceProvider (Some MockRealProvider) CACHE_WITH_FALLBACK)
                  "k" (PStr "first") (PInt 2) (PStr "first") (PStr "2") ready
                  eq_refl eq_refl)).
Defined.

(** X14 on the providers of two backends of the test suite. *)
Lemma namespaces_witness :
  provider_type (replay MockInferenceProvider (Some MockRealProvider) CACHE_WITH_FALLBACK)
  ≠ provider_type (replay MockInferenceProvider (Some DownProvider) CACHE_WITH_FALLBACK)
  ∧ cache_path_of (replay MockInferenceProvider (Some MockRealProvider) CACHE_WITH_FALLBACK) "k"
    ≠ cache_path_of (replay MockInferenceProvider (Some DownProvider) CACHE_WITH_FALLBACK) "k".
Proof.
  assert (H : provider_type (replay MockInferenceProvider (Some MockRealProvider)
                               CACHE_WITH_FALLBACK)
            ≠ provider_type (replay MockInferenceProvider (Some DownProvider)
                               CACHE_WITH_FALLBACK)) by discriminate.
  split; [exact H|].
  exact (proj1 (namespaces_are_disjoint (inference := no_inference)
                  (replay MockInferenceProvider (Some MockRealProvider) CACHE_WITH_FALLBACK)
                  (replay MockInferenceProvider (Some DownProvider) CACHE_WITH_FALLBACK)
                  "k" "k" PNone ready eq_refl eq_refl H ltac:(discriminate)
                  ltac:(discriminate))).
Defined.

(** X15 on the test suite's call, recorded through the mock backend and
    replayed by a provider made without it. *)
Lemma recorded_cache_witness :
  files ready = ∅
  ∧ (__acall__ (inference := no_inference)
       (replay MockInferenceProvider None CACHE_ONLY) "completion" [] hello
       (run_calls (inference := no_inference)
          (replay MockInferenceProvider (Some MockRealProvider) CACHE_WITH_FALLBACK)
          [Call "completion" [] hello] ready).2).1
    = Raise (RuntimeError
               ("Cache miss for "
                  +:+ _generate_cache_key (replay MockInferenceProvider None CACHE_ONLY)
                        "completion" [] hello
                  +:+ " and mode is CACHE_ONLY")).
Proof.
  split; [reflexivity|].
  exact (recorded_cache_needs_its_backend (inference := no_inference)
           (replay MockInferenceProvider (Some MockRealProvider) CACHE_WITH_FALLBACK)
           (replay MockInferenceProvider None CACHE_ONLY)
           MockRealProvider [Call "completion" [] hello] ready "completion" [] hello
           eq_refl ltac:(discriminate) ltac:(discriminate) eq_refl eq_refl eq_refl eq_refl
           eq_refl ltac:(known_route)).
Defined.

(** The name is what counts: what a backend of a class named NoProvider
    recorded is replayed by a provider made without a backend. *)
Example backend_named_NoProvider_is_replayed :
  (__acall__ (inference := no_inference)
     (replay MockInferenceProvider None CACHE_ONLY) "completion" [] hello
     (run_calls (inference := no_inference)
        (replay MockInferenceProvider (Some NoProvider) CACHE_WITH_FALLBACK)
        [Call "completion" [] hello] ready).2).1
  = Return (PStr "{'content': 'Response to: Hello world', 'model': 'test-model', 'call_number': 1}").
Proof. vm_compute. reflexivity. Qed.

(** X21 on a CompletionResponse with two string fields, which the
    stand-in class builds back from its dump. *)
Lemma save_then_load_witness :
  let self := replay MockInferenceProvider (Some MockRealProvider) CACHE_WITH_FALLBACK in
  let r := PModel V2 "CompletionResponse"
             [("content", PStr "4"); ("stop_reason", PStr "end_of_turn")] in
  registry (inference := sample_inference) "CompletionResponse"
    = Some sample_CompletionResponse
  ∧ (_save_to_cache self "k" r ready).1 = Return ()
  ∧ (_load_from_cache (inference := sample_inference) self "k"
       (_save_to_cache self "k" r ready).2).1 = Return r.
Proof.
  cbv zeta. split; [reflexivity|].
  destruct (save_then_load (inference := sample_inference)
              (replay MockInferenceProvider (Some MockRealProvider) CACHE_WITH_FALLBACK)
              "k" "CompletionResponse" sample_CompletionResponse
              [("content", PStr "4"); ("stop_reason", PStr "end_of_turn")]
              [("content", PStr "4"); ("stop_reason", PStr "end_of_turn")] ready
              eq_refl ltac:(vm_compute; reflexivity) eq_refl)
    as (H1 & H2 & _).
  split; [exact H1 | exact H2].
Defined.

(** X16 on an argument that holds a path. *)
Lemma key_holds_no_argument_text_witness :
  Str.contains_char "/"
    (_generate_cache_key
       (replay MockInferenceProvider (Some MockRealProvider) CACHE_WITH_FALLBACK)
       "completion" [PStr "../../etc/passwd"] []) = false.
Proof.
  exact (proj1 (key_holds_no_argument_text
                  (replay MockInferenceProvider (Some MockRealProvider) CACHE_WITH_FALLBACK)
                  "completion" [PStr "../../etc/passwd"] [] "/"
                  ltac:(vm_compute; reflexivity) ltac:(vm_compute; reflexivity)
                  ltac:(vm_compute; reflexivity) ltac:(vm_compute; reflexivity))).
Defined.

(** X18 on the entry point [completion] called with the keyword
    [method_name]. *)
Lemma method_name_keyword_witness :
  ("method_name" ∉ [("model_id", PStr "test-model")].*1)
  ∧ method_impl (inference := no_inference) "completion"
      (replay MockInferenceProvider (Some MockRealProvider) CACHE_WITH_FALLBACK) []
      ([("model_id", PStr "test-model")]
         ++ ("method_name", PStr "shutdown") :: [("content", PStr "Hello world")]) ready
    = method_impl (inference := no_inference) "shutdown"
        (replay MockInferenceProvider (Some MockRealProvider) CACHE_WITH_FALLBACK) []
        ([("model_id", PStr "test-model")] ++ [("content", PStr "Hello world")]) ready.
Proof.
  assert (H1 : "method_name" ∉ [("model_id", PStr "test-model")].*1)
    by (intros H; absent H).
  assert (H2 : "method_name" ∉ [("content", PStr "Hello world")].*1)
    by (intros H; absent H).
  split; [exact H1|].
  exact (proj2 (method_name_keyword_redirects (inference := no_inference)
                  "completion" "shutdown"
                  (replay MockInferenceProvider (Some MockRealProvider) CACHE_WITH_FALLBACK)
                  [] _ _ ready H1 H2)).
Defined.

(** The factory on the sample configuration, on a mode text it does not
    know, and on a backend that is not among the implementations. *)
Example factory_sample :
  (factory "inference" ReplayProviderConfig.sample_run_config impls () fresh).2
  = World {[ ["home"]; ["home"; "user"]; ["home"; "user"; ".llama_stack_cache"]; ["tmp"] ]}
      ∅ 0%Z []
  ∧ (factory "inference" (ReplayProviderConfig.make "together") impls () fresh)
    = (Raise (ValueError "Real provider 'together' not found in inner implementations"),
       fresh)
  ∧ (factory "agents" ReplayProviderConfig.sample_run_config impls () fresh)
    = (Raise (ValueError "Unknown API: agents"), fresh).
Proof. split; [vm_compute; reflexivity|]. split; vm_compute; reflexivity. Qed.
